(** * bdc-stac: the route layer ([bdc_stac/routes.py])

    A shallow embedding of the request handlers of the BDC-STAC API and of
    the two hooks wrapped around them (the after-request filter and the
    error handlers), with the properties of the search normaliser, the
    pagination links, the compression filter and the error shapes.

    Conventions.
    - A Python [int] is a [Z]; a Python [bytes] is a [list byte].
    - A Python [str] is a [string].  Header names and values are read one
      character per byte (WSGI hands them over Latin-1 decoded); query
      and body strings are read as their UTF-8 bytes, which is what
      [url_encode] percent-encodes.
    - A Python [dict] is an association list in insertion order.
    - Code that may raise returns a [result]; code that also touches a
      mutable object runs in the monad [M] over a heap of objects. *)

From Stdlib Require Import ZArith List String Ascii Bool Lia.
From Stdlib Require Import Strings.Byte.
From Stdlib Require Import DecimalString SpecFloat.
Import ListNotations.
Open Scope string_scope.
Open Scope Z_scope.

(** ** Text *)

Module Text.

(** [str.lower] on one character with code point below 256: the ASCII
    capitals and the Latin-1 capitals U+00C0..U+00DE (U+00D7 apart). *)
Definition lower_char (c : ascii) : ascii :=
  let n := N_of_ascii c in
  if ((65 <=? n) && (n <=? 90)
      || (192 <=? n) && (n <=? 222) && negb (n =? 215))%N
  then ascii_of_N (n + 32) else c.

Fixpoint lower (s : string) : string :=
  match s with
  | EmptyString => EmptyString
  | String c s' => String (lower_char c) (lower s')
  end.

(** [needle in hay] on strings. *)
Fixpoint contains (needle hay : string) : bool :=
  prefix needle hay
  || match hay with
     | EmptyString => false
     | String _ hay' => contains needle hay'
     end.

(** [sep.join(parts)]. *)
Definition join (sep : string) (parts : list string) : string :=
  String.concat sep parts.

(** [s.split(sep)] for a one-character separator. *)
Fixpoint split_on (sep : ascii) (s : string) : list string :=
  match s with
  | EmptyString => [EmptyString]
  | String c s' =>
      if Ascii.eqb c sep then EmptyString :: split_on sep s'
      else match split_on sep s' with
           | [] => [String c EmptyString]
           | w :: ws => String c w :: ws
           end
  end.

(** [str(n)] for an [int]. *)
Definition str_int (z : Z) : string :=
  NilZero.string_of_int (Z.to_int z).

(** [len(b)] for [bytes], and for a list. *)
Definition len {A} (l : list A) : Z := Z.of_nat (List.length l).

End Text.
Import Text.

(** ** Python values

    The values the handlers pass around: what [request.get_json()]
    parses, what [request.args] holds, and what is handed to the catalog
    store.  A float is an IEEE 754 double. *)

#[warnings="-register-all"]
Inductive value : Type :=
| VNone
| VBool (b : bool)
| VInt (z : Z)
| VFloat (f : spec_float)
| VStr (s : string)
| VList (l : list value)
| VDict (d : list (string * value)).

Definition is_none (v : value) : bool :=
  match v with VNone => true | _ => false end.

(** ** Exceptions *)

Inductive exn : Type :=
| HTTPException (code : Z) (description : string)
| InvalidBoundingBoxError (message : string)
| ValueError
| TypeError
| AttributeError
| OverflowError
| OtherError (message : string).

Inductive result (A : Type) : Type :=
| Ok (a : A)
| Raise (e : exn).
Arguments Ok {A} a.
Arguments Raise {A} e.

(** ** What the routes take from outside

    [Builtins]: operations of Python, of its [gzip] module and of
    werkzeug that are not modelled further.  [Deployment] (below): the
    configuration constants and the collaborators imported from
    [.config] and [.data]. *)

Class Builtins : Type := {
  (** [gzip.compress(data, compresslevel=4)] *)
  gzip_compress : list byte -> list byte;
  (** [int(s)] for a [str]; [None] when it raises [ValueError] *)
  int_of_str : string -> option Z;
  (** [str(x)] for a [float] *)
  str_float : spec_float -> string;
  (** [str(x)] for a [list] or a [dict] *)
  str_container : value -> string;
  (** the characters of a [str], as iteration yields them *)
  str_chars : string -> list string;
  (** [werkzeug.exceptions.InternalServerError.description] *)
  InternalServerError_description : string;
  (** [str(e)] for an exception of Python or of werkzeug *)
  str_exception : exn -> string
}.

(** ** Headers (werkzeug [Headers]): an ordered list of pairs whose keys
    compare case-insensitively. *)

Definition headers := list (string * string).

Definition same_key (k k' : string) : bool := String.eqb (lower k) (lower k').
Arguments same_key : simpl never.

(** [headers.add(k, v)] *)
Definition headers_add (k v : string) (h : headers) : headers := (h ++ [(k, v)])%list.

(** [k in headers] *)
Definition headers_contains (k : string) (h : headers) : bool :=
  existsb (fun kv => same_key (fst kv) k) h.

(** [headers.get(k, default)] *)
Fixpoint headers_get (k : string) (default : string) (h : headers) : string :=
  match h with
  | [] => default
  | (k', v) :: t => if same_key k' k then v else headers_get k default t
  end.

(** [headers.getlist(k)] *)
Definition headers_getlist (k : string) (h : headers) : list string :=
  map snd (filter (fun kv => same_key (fst kv) k) h).

(** [headers[k] = v]: the first entry of that key is replaced where it
    stands and the later ones are dropped; a new key goes to the end. *)
Fixpoint headers_set (k v : string) (h : headers) : headers :=
  match h with
  | [] => [(k, v)]
  | (k', v') :: t =>
      if same_key k' k
      then (k, v) :: filter (fun kv => negb (same_key (fst kv) k)) t
      else (k', v') :: headers_set k v t
  end.

(** ** Responses and the after-request filter *)

Record response : Type := {
  status_code : Z;
  direct_passthrough : bool;
  data : list byte;
  resp_headers : headers
}.

(** [response.set_data(value)]: stores the body and, as werkzeug does by
    default, writes its length to [Content-Length]. *)
Definition set_data (value : list byte) (r : response) : response :=
  {| status_code := status_code r;
     direct_passthrough := direct_passthrough r;
     data := value;
     resp_headers := headers_set "Content-Length" (str_int (len value)) (resp_headers r) |}.

Definition with_headers (h : headers) (r : response) : response :=
  {| status_code := status_code r;
     direct_passthrough := direct_passthrough r;
     data := data r;
     resp_headers := h |}.

(** The three [headers.add] calls that open [after_request]. *)
Definition cors (h : headers) : headers :=
  headers_add "Access-Control-Allow-Methods" "GET, POST"
    (headers_add "Access-Control-Allow-Headers" "Content-Type"
       (headers_add "Access-Control-Allow-Origin" "*" h)).

(** [after_request(response)]; [req_headers] is [request.headers]. *)
Definition after_request `{Builtins} (req_headers : headers) (resp : response) : response :=
  let response := with_headers (cors (resp_headers resp)) resp in
  let accept_encoding := headers_get "Accept-Encoding" "" req_headers in
  if (status_code response <? 200)
     || (status_code response >=? 300)
     || direct_passthrough response
     || (len (data response) <? 500)
     || negb (contains "gzip" (lower accept_encoding))
     || headers_contains "Content-Encoding" (resp_headers response)
  then response
  else
    let compressed_data := gzip_compress (data response) in
    let response := set_data compressed_data response in
    let response := with_headers (headers_set "Content-Encoding" "gzip" (resp_headers response)) response in
    let response := with_headers
                      (headers_set "Content-Length" (str_int (len (data response))) (resp_headers response))
                      response in
    response.

(** ** Dictionaries and query parameters *)

(** [d.get(key, default)] *)
Fixpoint dict_get {A} (d : list (string * A)) (key : string) (default : A) : A :=
  match d with
  | [] => default
  | (k, v) :: t => if String.eqb k key then v else dict_get t key default
  end.

(** [key in d] *)
Definition dict_mem {A} (d : list (string * A)) (key : string) : bool :=
  existsb (fun kv => String.eqb (fst kv) key) d.

(** [d[key] = v]: an existing key keeps its place, a new one goes last. *)
Fixpoint dict_set {A} (d : list (string * A)) (key : string) (v : A) : list (string * A) :=
  match d with
  | [] => [(key, v)]
  | (k, v') :: t =>
      if String.eqb k key then (k, v) :: t else (k, v') :: dict_set t key v
  end.

(** werkzeug [MultiDict]: each key maps to the list of its values. *)
Definition MultiDict := list (string * list value).

(** [args.get(key, default)]: the first value of the key. *)
Definition args_get (args : MultiDict) (key : string) (default : value) : value :=
  match dict_get args key [] with
  | [] => default
  | v :: _ => v
  end.

(** [args[key] = v] on the mutable copy: the key now has exactly [v]. *)
Definition args_set (args : MultiDict) (key : string) (v : value) : MultiDict :=
  dict_set args key [v].

(** [args.to_dict()]: every key with its first value. *)
Fixpoint to_dict (args : MultiDict) : list (string * value) :=
  match args with
  | [] => []
  | (k, []) :: t => to_dict t
  | (k, v :: _) :: t => (k, v) :: to_dict t
  end.

(** [iter_multi_items(args)]: one pair per value. *)
Definition iter_multi_items (args : MultiDict) : list (string * value) :=
  flat_map (fun kvs => map (fun v => (fst kvs, v)) (snd kvs)) args.

(** ** [str] and [int] on values *)

(** [str(x)] *)
Definition py_str `{Builtins} (x : value) : string :=
  match x with
  | VNone => "None"
  | VBool true => "True"
  | VBool false => "False"
  | VInt z => str_int z
  | VFloat f => str_float f
  | VStr s => s
  | VList _ | VDict _ => str_container x
  end.

(** [int(f)] for a float: truncation towards zero. *)
Definition int_of_float (f : spec_float) : result Z :=
  match f with
  | S754_zero _ => Ok 0
  | S754_infinity _ => Raise OverflowError
  | S754_nan => Raise ValueError
  | S754_finite s m e =>
      let mag := if 0 <=? e then Z.pos m * 2 ^ e else Z.pos m / 2 ^ (- e) in
      Ok (if s then - mag else mag)
  end.

(** [int(x)] *)
Definition py_int `{Builtins} (x : value) : result Z :=
  match x with
  | VInt z => Ok z
  | VBool b => Ok (if b then 1 else 0)
  | VFloat f => int_of_float f
  | VStr s => match int_of_str s with Some z => Ok z | None => Raise ValueError end
  | VNone | VList _ | VDict _ => Raise TypeError
  end.

(** [[x for x in v]]: what iterating over [v] yields. *)
Definition py_iter `{Builtins} (v : value) : result (list value) :=
  match v with
  | VList l => Ok l
  | VStr s => Ok (map VStr (str_chars s))
  | VDict d => Ok (map (fun kv => VStr (fst kv)) d)
  | VNone | VBool _ | VInt _ | VFloat _ => Raise TypeError
  end.

(** [",".join(xs)]: every element has to be a [str]. *)
Fixpoint strings_of (xs : list value) : result (list string) :=
  match xs with
  | [] => Ok []
  | VStr s :: t =>
      match strings_of t with Ok l => Ok (s :: l) | Raise e => Raise e end
  | _ :: _ => Raise TypeError
  end.

Definition py_join (sep : string) (xs : list value) : result string :=
  match strings_of xs with Ok l => Ok (join sep l) | Raise e => Raise e end.

(** ** [url_encode] (werkzeug) *)

Module Url.

Definition hex_digit (n : N) : ascii :=
  if (n <? 10)%N then ascii_of_N (48 + n) else ascii_of_N (55 + n).

(** The bytes [_fast_url_quote_plus] leaves as they are: letters, digits,
    [-._~] and the space (turned into [+] afterwards). *)
Definition always_safe (c : ascii) : bool :=
  let n := N_of_ascii c in
  ((97 <=? n) && (n <=? 122) || (65 <=? n) && (n <=? 90) || (48 <=? n) && (n <=? 57)
   || (n =? 45) || (n =? 46) || (n =? 95) || (n =? 126))%N.

Definition quote_char (c : ascii) : string :=
  if Ascii.eqb c " " then "+"
  else if always_safe c then String c EmptyString
  else let n := N_of_ascii c in
       String "%" (String (hex_digit (n / 16)) (String (hex_digit (n mod 16)) EmptyString)).

Fixpoint url_quote_plus (s : string) : string :=
  match s with
  | EmptyString => EmptyString
  | String c s' => quote_char c ++ url_quote_plus s'
  end.

End Url.
Import Url.

(** One [key=value] component per item; items whose value is [None] are
    skipped. *)
Definition url_encode_items `{Builtins} (items : list (string * value)) : list string :=
  map (fun kv => url_quote_plus (fst kv) ++ "=" ++ url_quote_plus (py_str (snd kv)))
      (filter (fun kv => negb (is_none (snd kv))) items).

(** [url_encode(args)] for a [MultiDict] *)
Definition url_encode `{Builtins} (args : MultiDict) : string :=
  join "&" (url_encode_items (iter_multi_items args)).

(** [url_encode(d)] for a plain [dict] *)
Definition url_encode_dict `{Builtins} (d : list (string * value)) : string :=
  join "&" (url_encode_items d).

(** ** Mutable objects

    The parsed JSON body is an object on a heap; [deepcopy] allocates a
    new one.  The values inside an object are immutable trees, so a deep
    copy is a new object with the same content. *)

Definition loc := nat.
Definition heap := list value.

Definition M (A : Type) : Type := heap -> result A * heap.

Definition ret {A} (a : A) : M A := fun h => (Ok a, h).

Definition bind {A B} (c : M A) (k : A -> M B) : M B :=
  fun h => match c h with
           | (Ok a, h') => k a h'
           | (Raise e, h') => (Raise e, h')
           end.

Definition raise {A} (e : exn) : M A := fun h => (Raise e, h).

Definition lift {A} (r : result A) : M A := fun h => (r, h).

Notation "x <- c ;; k" := (bind c (fun x => k))
  (at level 61, c at next level, right associativity).
Notation "c ;;; k" := (bind c (fun _ => k))
  (at level 61, right associativity).

(** Reading an object; every location in use has been allocated. *)
Definition load (l : loc) : M value := fun h => (Ok (nth l h VNone), h).

Fixpoint update_nth {A} (n : nat) (a : A) (l : list A) : list A :=
  match l, n with
  | [], _ => []
  | _ :: t, O => a :: t
  | x :: t, S n' => x :: update_nth n' a t
  end.

Definition store (l : loc) (v : value) : M unit := fun h => (Ok tt, update_nth l v h).

Definition alloc (v : value) : M loc := fun h => (Ok (List.length h), (h ++ [v])%list).

(** [deepcopy(obj)] *)
Definition deepcopy (l : loc) : M loc := v <- load l ;; alloc v.

(** [obj.get(key, default)]: only a [dict] has the method. *)
Definition obj_get (l : loc) (key : string) (default : value) : M value :=
  v <- load l ;;
  match v with
  | VDict d => ret (dict_get d key default)
  | _ => raise AttributeError
  end.

(** [obj[key] = v] with a [str] key *)
Definition obj_setitem (l : loc) (key : string) (v : value) : M unit :=
  x <- load l ;;
  match x with
  | VDict d => store l (VDict (dict_set d key v))
  | _ => raise TypeError
  end.

(** ** Requests, pages and links *)

Record request : Type := {
  method : string;
  args : MultiDict;
  req_headers : headers;
  is_json : bool;
  (** what [request.get_json()] returns or raises *)
  get_json : result loc
}.

(** The page object the catalog store returns. *)
Record Pagination : Type := {
  items : list value;
  total : Z;
  per_page : Z;
  has_next : bool;
  has_prev : bool;
  next_num : Z;
  prev_num : Z
}.

Record link : Type := {
  href : string;
  rel : string;
  link_type : option string;
  title : option string;
  body : option loc;
  link_method : option string;
  merge : option bool
}.

Definition plain_link (h r : string) : link :=
  {| href := h; rel := r; link_type := None; title := None;
     body := None; link_method := None; merge := None |}.

Definition titled_link (h r t : string) : link :=
  {| href := h; rel := r; link_type := Some "application/json"; title := Some t;
     body := None; link_method := None; merge := None |}.

Definition post_link (l : link) (b : loc) : link :=
  {| href := href l; rel := rel l; link_type := link_type l; title := title l;
     body := Some b; link_method := Some "POST"; merge := Some true |}.

(** The [gjson] dictionary of the two listing routes. *)
Record feature_collection : Type := {
  stac_version : option string;
  stac_extensions : option (list string);
  fc_type : string;
  links : list link;
  context : list (string * Z);
  features : list value
}.

Class Deployment : Type := {
  (** [BDC_STAC_BASE_URL] *)
  BASE_URL : string;
  (** [BDC_STAC_ASSETS_ARGS]: unset, or a comma-separated list of names *)
  BDC_STAC_ASSETS_ARGS : option string;
  (** [get_collection_items] of the catalog store, on its keyword arguments *)
  get_collection_items : list (string * value) -> result Pagination;
  (** [make_geojson(items, links, assets_kwargs)] *)
  make_geojson : list value -> list link -> string -> list value
}.

Section Routes.
Context `{Builtins} `{Deployment}.

(** [get_assets_kwargs(access_token)] *)
Definition get_assets_kwargs (req : request) (access_token : string) : string :=
  match BDC_STAC_ASSETS_ARGS with
  | None => ""
  | Some conf =>
      if String.eqb conf "" then ""
      else
        let assets_kwargs :=
          fold_left
            (fun d arg =>
               let v := args_get (args req) arg VNone in
               if is_none v then d else dict_set d arg v)
            (split_on "," conf) [] in
        let assets_kwargs :=
          if String.eqb access_token "" then assets_kwargs
          else dict_set assets_kwargs "access_token" (VStr access_token) in
        match assets_kwargs with
        | [] => ""
        | _ :: _ =>
            if String.eqb (url_encode_dict assets_kwargs) "" then ""
            else "?" ++ url_encode_dict assets_kwargs
        end
  end.

(** [abort(code, description)] *)
Definition abort {A} (code : Z) (description : string) : M A :=
  raise (HTTPException code description).

(** The query-string suffix of a pagination link:
    [f'?{url_encode(args)}' if len(args) > 0 else '']. *)
Definition query_suffix (a : MultiDict) : string :=
  if 0 <? len a then "?" ++ url_encode a else "".

(** *** [stac_search]: the arguments (lines 323-355) *)

(** The local variables of [stac_search] after the method dispatch. *)
Record search_args : Type := {
  bbox : value;
  datetime : value;
  ids : value;
  collections : value;
  page : value;
  limit : value;
  intersects : value;
  query : value;
  request_json : option loc
}.

(** [",".join([str(x) for x in v])] *)
Definition join_str (v : value) : M value :=
  xs <- lift (py_iter v) ;;
  ret (VStr (join "," (map py_str xs))).

(** [",".join([x for x in v])] *)
Definition join_plain (v : value) : M value :=
  xs <- lift (py_iter v) ;;
  s <- lift (py_join "," xs) ;;
  ret (VStr s).

Definition search_arguments (req : request) : M search_args :=
  if String.eqb (method req) "POST" then
    if is_json req then
      rj <- lift (get_json req) ;;
      b <- obj_get rj "bbox" VNone ;;
      b <- (if is_none b then ret b else join_str b) ;;
      d <- obj_get rj "datetime" VNone ;;
      i <- obj_get rj "ids" VNone ;;
      i <- (if is_none i then ret i else join_plain i) ;;
      s <- obj_get rj "intersects" VNone ;;
      q <- obj_get rj "query" VNone ;;
      c <- obj_get rj "collections" VNone ;;
      c <- (if is_none c then ret c else join_plain c) ;;
      p <- obj_get rj "page" (VInt 1) ;;
      p <- lift (py_int p) ;;
      l <- obj_get rj "limit" (VInt 10) ;;
      l <- lift (py_int l) ;;
      ret {| bbox := b; datetime := d; ids := i; collections := c;
             page := VInt p; limit := VInt l; intersects := s; query := q;
             request_json := Some rj |}
    else abort 400 "POST Request must be an application/json"
  else if String.eqb (method req) "GET" then
    let b := args_get (args req) "bbox" VNone in
    let d := args_get (args req) "datetime" VNone in
    let i := args_get (args req) "ids" VNone in
    let c := args_get (args req) "collections" VNone in
    p <- lift (py_int (args_get (args req) "page" (VInt 1))) ;;
    l <- lift (py_int (args_get (args req) "limit" (VInt 10))) ;;
    ret {| bbox := b; datetime := d; ids := i; collections := c;
           page := VInt p; limit := VInt l; intersects := VNone; query := VNone;
           request_json := None |}
  else
    ret {| bbox := VNone; datetime := VNone; ids := VNone; collections := VNone;
           page := VNone; limit := VNone; intersects := VNone; query := VNone;
           request_json := None |}.

(** The keyword arguments of the store call (lines 357-367). *)
Definition search_kwargs (roles : list string) (a : search_args) : list (string * value) :=
  [ ("collections", collections a);
    ("roles", VList (map VStr roles));
    ("bbox", bbox a);
    ("datetime", datetime a);
    ("ids", ids a);
    ("page", page a);
    ("limit", limit a);
    ("intersects", intersects a);
    ("query", query a) ].

(** *** [stac_search]: one pagination link (lines 389-403 and 404-418)

    The two blocks of the source differ in the [rel] and in the page
    number only.  [args'] is the local copy of [request.args]; the block
    may write to it, so it is handed back. *)
Definition search_page_link (req : request) (rj : option loc) (args' : MultiDict)
    (r : string) (num : Z) : M (link * MultiDict) :=
  let args' := if String.eqb (method req) "GET"
               then args_set args' "page" (VInt num) else args' in
  let l := plain_link (BASE_URL ++ "/search" ++ query_suffix args') r in
  if String.eqb (method req) "POST" then
    match rj with
    | Some rj =>
        b <- deepcopy rj ;;
        obj_setitem b "page" (VInt num) ;;;
        ret (post_link l b, args')
    | None => raise (OtherError "UnboundLocalError")
    end
  else ret (l, args').

(** [gjson["links"]] of [stac_search] (lines 381, 387-418). *)
Definition search_links (req : request) (rj : option loc) (items' : Pagination) : M (list link) :=
  let args' := args req in
  n <- (if has_next items'
        then la <- search_page_link req rj args' "next" (next_num items') ;;
             ret ([fst la], snd la)
        else ret ([], args')) ;;
  p <- (if has_prev items'
        then la <- search_page_link req rj (snd n) "prev" (prev_num items') ;;
             ret ([fst la])
        else ret []) ;;
  ret (fst n ++ p)%list.

(** [stac_search(roles, access_token)] *)
Definition stac_search (roles : list string) (access_token : string) (req : request)
  : M feature_collection :=
  a <- search_arguments req ;;
  items' <- lift (get_collection_items (search_kwargs roles a)) ;;
  let links' :=
    [ plain_link (BASE_URL ++ "/collections/") "self";
      plain_link (BASE_URL ++ "/collections/") "parent";
      plain_link (BASE_URL ++ "/collections/") "collection";
      plain_link (BASE_URL ++ "/") "root" ] in
  let features' := make_geojson (items items') links' (get_assets_kwargs req access_token) in
  let context' := [("matched", total items'); ("returned", len (items items'))] in
  ls <- search_links req (request_json a) items' ;;
  ret {| stac_version := None; stac_extensions := None;
         fc_type := "FeatureCollection";
         links := ls; context := context'; features := features' |}.

(** *** [collection_items] *)

(** [gjson["links"]] of [collection_items] (lines 264, 272-289). *)
Definition items_links (collection_id : string) (req : request) (items' : Pagination) : list link :=
  let args' := args req in
  let n :=
    if has_next items'
    then let args' := args_set args' "page" (VInt (next_num items')) in
         ([plain_link (BASE_URL ++ "/collections/" ++ collection_id ++ "/items"
                       ++ query_suffix args') "next"], args')
    else ([], args') in
  let p :=
    if has_prev items'
    then let args' := args_set (snd n) "page" (VInt (prev_num items')) in
         [plain_link (BASE_URL ++ "/collections/" ++ collection_id ++ "/items"
                      ++ query_suffix args') "prev"]
    else [] in
  (fst n ++ p)%list.

(** [collection_items(collection_id, roles, access_token)].  A query
    parameter named like one of the two explicit keyword arguments makes
    the call itself raise [TypeError]. *)
Definition collection_items (collection_id : string) (roles : list string)
    (access_token : string) (req : request) : M feature_collection :=
  let kw := to_dict (args req) in
  items' <- (if dict_mem kw "collection_id" || dict_mem kw "roles"
             then raise TypeError
             else lift (get_collection_items
                          ([("collection_id", VStr collection_id);
                            ("roles", VList (map VStr roles))] ++ kw)%list)) ;;
  let links' :=
    [ titled_link (BASE_URL ++ "/collections/") "self" "Link to this document";
      titled_link (BASE_URL ++ "/collections/") "parent" "The collection related to this item";
      titled_link (BASE_URL ++ "/collections/") "collection" "The collection related to this item";
      titled_link (BASE_URL ++ "/") "root" "API landing page (root catalog)" ] in
  let features' := make_geojson (items items') links' (get_assets_kwargs req access_token) in
  let context' := [("matched", total items'); ("returned", len (items items'));
                   ("limit", per_page items')] in
  ret {| stac_version := Some "0.9.0";
         stac_extensions := Some ["checksum"; "commons"; "context"; "eo"];
         fc_type := "FeatureCollection";
         links := items_links collection_id req items';
         context := context'; features := features' |}.

(** ** Error handlers *)

(** What a handler returns: the body and the status. *)
Definition error_reply : Type := value * Z.

(** [handle_exception(e)]; the second component is what goes to
    [current_app.logger.exception]. *)
Definition handle_exception (e : exn) : error_reply * list exn :=
  match e with
  | HTTPException code description =>
      ((VDict [("code", VInt code); ("description", VStr description)], code), [])
  | _ =>
      ((VDict [("code", VInt 500);
               ("description", VStr InternalServerError_description)], 500), [e])
  end.

(** Modelled from the spec: the class [InvalidBoundingBoxError] is
    declared in [.data]; its [str(e)] is the message it was raised with. *)
Definition exn_str (e : exn) : string :=
  match e with
  | InvalidBoundingBoxError message => message
  | _ => str_exception e
  end.

(** [handle_exception_bbox(e)] *)
Definition handle_exception_bbox (e : exn) : error_reply * list exn :=
  ((VDict [("code", VStr "400"); ("description", VStr (exn_str e))], 400), []).

(** Flask picks the handler registered for the first class of the
    exception's method resolution order that has one. *)
Inductive exn_class : Type :=
| CException | CHTTPException | CInvalidBoundingBoxError
| CValueError | CTypeError | CAttributeError | CArithmeticError | COverflowError
| COther.

Definition class_tag (c : exn_class) : nat :=
  match c with
  | CException => 0 | CHTTPException => 1 | CInvalidBoundingBoxError => 2
  | CValueError => 3 | CTypeError => 4 | CAttributeError => 5
  | CArithmeticError => 6 | COverflowError => 7 | COther => 8
  end%nat.

Definition class_eqb (c c' : exn_class) : bool := Nat.eqb (class_tag c) (class_tag c').

Definition class_of (e : exn) : exn_class :=
  match e with
  | HTTPException _ _ => CHTTPException
  | InvalidBoundingBoxError _ => CInvalidBoundingBoxError
  | ValueError => CValueError
  | TypeError => CTypeError
  | AttributeError => CAttributeError
  | OverflowError => COverflowError
  | OtherError _ => COther
  end.

(** The classes of an exception from the most specific one up to
    [Exception].  Modelled from the spec: [InvalidBoundingBoxError] is
    declared in [.data]; it is a domain failure of its own, derived from
    [Exception]. *)
Definition mro (c : exn_class) : list exn_class :=
  match c with
  | CException => [CException]
  | COverflowError => [COverflowError; CArithmeticError; CException]
  | c => [c; CException]
  end.

Definition handler : Type := exn -> error_reply * list exn.

(** The two [errorhandler] registrations, in source order. *)
Definition error_handlers : list (exn_class * handler) :=
  [ (CException, handle_exception);
    (CInvalidBoundingBoxError, handle_exception_bbox) ].

Fixpoint lookup_handler (c : exn_class) (reg : list (exn_class * handler)) : option handler :=
  match reg with
  | [] => None
  | (c', h) :: t => if class_eqb c' c then Some h else lookup_handler c t
  end.

Fixpoint first_handler (classes : list exn_class) (reg : list (exn_class * handler))
  : option handler :=
  match classes with
  | [] => None
  | c :: t => match lookup_handler c reg with
              | Some h => Some h
              | None => first_handler t reg
              end
  end.

Definition find_error_handler (e : exn) : option handler :=
  first_handler (mro (class_of e)) error_handlers.

(** What the caller gets for a request: the payload with status 200, or
    the reply of the error handler. *)
Inductive reply : Type :=
| Success (g : feature_collection)
| Failure (body' : value) (status : Z)
| Unhandled (e : exn).

(** Running a view and turning what it raises into a reply; the log
    collects what the handlers hand to the logger. *)
Definition dispatch_request (view : M feature_collection) (h : heap)
  : reply * heap * list exn :=
  match view h with
  | (Ok g, h') => (Success g, h', [])
  | (Raise e, h') =>
      match find_error_handler e with
      | Some handle => let '((b, st), logged) := handle e in (Failure b st, h', logged)
      | None => (Unhandled e, h', [])
      end
  end.

End Routes.

(** ** The catalog routes

    The landing page, the collection listings and the single-item
    lookup.  [Catalog] holds what they import from [.config] and
    [.data] beyond [Deployment]: a row of [get_catalog] is read through
    its [name] and [title]; a collection of [get_collections] is a
    dictionary. *)

Class Catalog : Type := {
  BDC_STAC_TITLE : string;
  BDC_STAC_ID : string;
  BDC_STAC_API_VERSION : string;
  (** [get_catalog(roles=roles)]: the rows, as (name, title) *)
  get_catalog : list string -> result (list (string * string));
  (** [get_collections(collection_id, roles=roles)] *)
  get_collections : option string -> list string -> result (list (list (string * value)))
}.

Definition typed_link (h r ty t : string) : link :=
  {| href := h; rel := r; link_type := Some ty; title := Some t;
     body := None; link_method := None; merge := None |}.

(** A link dictionary as the value stored under a collection's [links]. *)
Definition link_value (l : link) : value :=
  VDict ([("href", VStr (href l)); ("rel", VStr (rel l))]
         ++ match link_type l with Some t => [("type", VStr t)] | None => [] end
         ++ match title l with Some t => [("title", VStr t)] | None => [] end)%list.

(** [d[key]]: a missing key raises [KeyError]. *)
Fixpoint dict_item {A} (d : list (string * A)) (key : string) : result A :=
  match d with
  | [] => Raise (OtherError "KeyError")
  | (k, v) :: t => if String.eqb k key then Ok v else dict_item t key
  end.

Section CatalogRoutes.
Context `{Builtins} `{Deployment} `{Catalog}.

(** [conformance()] *)
Definition conformance : list (string * value) :=
  [("conformsTo",
    VList [VStr "http://www.opengis.net/spec/wfs-1/3.0/req/core";
           VStr "http://www.opengis.net/spec/wfs-1/3.0/req/oas30";
           VStr "http://www.opengis.net/spec/wfs-1/3.0/req/html";
           VStr "http://www.opengis.net/spec/wfs-1/3.0/req/geojson"])].

(** The [catalog] dictionary of the landing page. *)
Record catalog_doc : Type := {
  cat_description : string;
  cat_id : string;
  cat_stac_version : string;
  cat_links : list link
}.

(** [index(roles, access_token)]; the loop appends one link per row. *)
Definition index (roles : list string) (access_token : string) (req : request)
  : M catalog_doc :=
  collections' <- lift (get_catalog roles) ;;
  let links' :=
    [ typed_link (BASE_URL ++ "/") "self" "application/json" "Link to this document";
      typed_link (BASE_URL ++ "/docs") "service-doc" "text/html" "API documentation in HTML";
      typed_link (BASE_URL ++ "/conformance") "conformance" "application/json"
        "OGC API conformance classes implemented by the server";
      typed_link (BASE_URL ++ "/collections") "data" "application/json"
        "Information about image collections";
      typed_link (BASE_URL ++ "/search") "search" "application/json" "STAC-Search endpoint" ] in
  let links' :=
    fold_left
      (fun ls collection =>
         (ls ++ [typed_link (BASE_URL ++ "/collections/" ++ fst collection
                             ++ get_assets_kwargs req access_token)
                   "child" "application/json" (snd collection)])%list)
      collections' links' in
  ret {| cat_description := BDC_STAC_TITLE;
         cat_id := BDC_STAC_ID;
         cat_stac_version := BDC_STAC_API_VERSION;
         cat_links := links' |}.

(** The four links [root] and [collections_id] give a collection; the
    hrefs read [collection['id']]. *)
Definition collection_links (collection : list (string * value)) (assets_kwargs : string)
  : result (list link) :=
  match dict_item collection "id" with
  | Raise e => Raise e
  | Ok id =>
      Ok [ titled_link (BASE_URL ++ "/collections/" ++ py_str id ++ assets_kwargs)
             "self" "Link to this document";
           titled_link (BASE_URL ++ "/collections/" ++ py_str id ++ "/items" ++ assets_kwargs)
             "items" ("Items of the collection " ++ py_str id);
           titled_link (BASE_URL ++ "/collections" ++ assets_kwargs)
             "parent" "Link to catalog collections";
           titled_link (BASE_URL ++ "/" ++ assets_kwargs)
             "root" "API landing page (root catalog)" ]
  end.

(** [collection["links"] = links] *)
Definition with_links (collection : list (string * value)) (assets_kwargs : string)
  : result (list (string * value)) :=
  match collection_links collection assets_kwargs with
  | Raise e => Raise e
  | Ok ls => Ok (dict_set collection "links" (VList (map link_value ls)))
  end.

(** The loop of [root] over the collections. *)
Fixpoint each_with_links (cs : list (list (string * value))) (assets_kwargs : string)
  : result (list (list (string * value))) :=
  match cs with
  | [] => Ok []
  | c :: t =>
      match with_links c assets_kwargs with
      | Raise e => Raise e
      | Ok c' =>
          match each_with_links t assets_kwargs with
          | Raise e => Raise e
          | Ok t' => Ok (c' :: t')
          end
      end
  end.

(** [root(roles, access_token)] *)
Definition root (roles : list string) (access_token : string) (req : request)
  : M (list (string * value)) :=
  let assets_kwargs := get_assets_kwargs req access_token in
  collections' <- lift (get_collections None roles) ;;
  collections' <- lift (each_with_links collections' assets_kwargs) ;;
  ret [("collections", VList (map VDict collections'))].

(** [collections_id(collection_id, roles, access_token)] *)
Definition collections_id (collection_id : string) (roles : list string)
    (access_token : string) (req : request) : M (list (string * value)) :=
  let assets_kwargs := get_assets_kwargs req access_token in
  collection <- lift (get_collections (Some collection_id) roles) ;;
  match collection with
  | [] => abort 404 "Collection not found."
  | collection :: _ => lift (with_links collection assets_kwargs)
  end.

(** [items_id(collection_id, item_id, roles, access_token)] *)
Definition items_id (collection_id item_id : string) (roles : list string)
    (access_token : string) (req : request) : M value :=
  item <- lift (get_collection_items
                  [("collection_id", VStr collection_id);
                   ("roles", VList (map VStr roles));
                   ("item_id", VStr item_id)]) ;;
  let links' :=
    [ plain_link (BASE_URL ++ "/collections/") "self";
      plain_link (BASE_URL ++ "/collections/") "parent";
      plain_link (BASE_URL ++ "/collections/") "collection";
      plain_link (BASE_URL ++ "/") "root" ] in
  let gjson := make_geojson (items item) links' (get_assets_kwargs req access_token) in
  match gjson with
  | feature :: _ => ret feature
  | [] => abort 404 ("Invalid item id '" ++ item_id ++ "' for collection '"
                     ++ collection_id ++ "'")
  end.

(** What the caller gets from any view: what it returned, or the reply
    of the error handler picked as in [dispatch_request]. *)
Inductive outcome (A : Type) : Type :=
| Sent (a : A)
| Failed (body' : value) (status : Z)
| Escaped (e : exn).

Definition dispatch {A} (view : M A) (h : heap) : outcome A * heap * list exn :=
  match view h with
  | (Ok a, h') => (Sent A a, h', [])
  | (Raise e, h') =>
      match find_error_handler e with
      | Some handle => let '((b, st), logged) := handle e in (Failed A b st, h', logged)
      | None => (Escaped A e, h', [])
      end
  end.

End CatalogRoutes.

Arguments Sent {A} a.
Arguments Failed {A} body' status.
Arguments Escaped {A} e.

(** ** A platform to compute with

    [demo_builtins] fixes the operations left open: compression prefixes
    the gzip magic number, [int] reads an optional sign and decimal
    digits, and the description of [InternalServerError] is werkzeug's. *)

(** werkzeug's text for [InternalServerError.description]. *)
Definition werkzeug_internal_error_description : string :=
  "The server encountered an internal error and was unable to complete your request. Either the server is overloaded or there is an error in the application.".

Definition demo_int_of_str (s : string) : option Z :=
  match NilZero.int_of_string s with
  | Some d => Some (Z.of_int d)
  | None => None
  end.

Definition demo_builtins : Builtins :=
  {| gzip_compress := fun b => (x1f :: x8b :: b);
     int_of_str := demo_int_of_str;
     str_float := fun _ => "0.0";
     str_container := fun _ => "[]";
     str_chars := fun s => map (fun c => String c EmptyString) (list_ascii_of_string s);
     InternalServerError_description := werkzeug_internal_error_description;
     str_exception := fun _ => "error" |}.

(** A store with five items, two per page, positioned on page [n]. *)
Definition demo_page (n : Z) : Pagination :=
  {| items := [VStr "item-a"; VStr "item-b"];
     total := 5;
     per_page := 2;
     has_next := n * 2 <? 5;
     has_prev := 1 <? n;
     next_num := n + 1;
     prev_num := n - 1 |}.

Definition demo_deployment : Deployment :=
  {| BASE_URL := "http://localhost";
     BDC_STAC_ASSETS_ARGS := Some "access_token";
     get_collection_items := fun kw =>
       match dict_get kw "bbox" VNone, dict_get kw "page" VNone with
       | VStr "1,2,3", _ => Raise (InvalidBoundingBoxError "bbox needs four numbers")
       | _, VInt n => Ok (demo_page n)
       | _, _ => Ok (demo_page 1)
       end;
     make_geojson := fun its _ _ => its |}.

(** A catalog of two collections. *)
Definition demo_catalog : Catalog :=
  {| BDC_STAC_TITLE := "Brazil Data Cube Catalog";
     BDC_STAC_ID := "bdc";
     BDC_STAC_API_VERSION := "0.9.0";
     get_catalog := fun _ => Ok [("S2-L2A", "Sentinel-2"); ("LC8", "Landsat-8")];
     get_collections := fun cid _ =>
       match cid with
       | None => Ok [[("id", VStr "S2-L2A"); ("links", VList [])];
                     [("id", VStr "LC8"); ("title", VStr "Landsat-8")]]
       | Some "S2-L2A" => Ok [[("id", VStr "S2-L2A"); ("links", VList [])]]
       | Some _ => Ok []
       end |}.


(** ** Vocabulary of the properties

    What the statements below are phrased with: the conditions of the
    filter, the shapes of the error replies, the structured form of a
    search, the links by request shape, and the inputs the examples run
    on. *)

Section Vocabulary.
Context `{Builtins} `{Deployment}.

(** *** The filter *)

(** The five conditions under which the filter compresses, read on the
    response as it comes in. *)
Definition compressible (rh : headers) (resp : response) : Prop :=
  200 <= status_code resp < 300
  /\ direct_passthrough resp = false
  /\ 500 <= len (data resp)
  /\ contains "gzip" (lower (headers_get "Accept-Encoding" "" rh)) = true
  /\ headers_contains "Content-Encoding" (resp_headers resp) = false.

Definition compressibleb (rh : headers) (resp : response) : bool :=
  (200 <=? status_code resp) && (status_code resp <? 300)
  && negb (direct_passthrough resp)
  && (500 <=? len (data resp))
  && contains "gzip" (lower (headers_get "Accept-Encoding" "" rh))
  && negb (headers_contains "Content-Encoding" (resp_headers resp)).

(** The response the filter builds when it compresses. *)
Definition compressed (resp : response) : response :=
  let z := gzip_compress (data resp) in
  {| status_code := status_code resp;
     direct_passthrough := direct_passthrough resp;
     data := z;
     resp_headers :=
       headers_set "Content-Length" (str_int (len z))
         (headers_set "Content-Encoding" "gzip"
            (headers_set "Content-Length" (str_int (len z)) (cors (resp_headers resp)))) |}.

(** A 500-byte success response and a request that accepts gzip. *)
Definition demo_accept : headers := [("Accept-Encoding", "deflate, GZip")].

Definition demo_response (n : nat) (passthrough : bool) : response :=
  {| status_code := 200;
     direct_passthrough := passthrough;
     data := repeat x00 n;
     resp_headers := [("Content-Type", "application/json")] |}.

Definition demo_not_found : response :=
  {| status_code := 404;
     direct_passthrough := false;
     data := [];
     resp_headers := [("Content-Type", "application/json")] |}.

(** *** Failures and replies *)

(** The exceptions Python itself raises in the handlers. *)
Definition builtin_exn (e : exn) : bool :=
  match e with
  | ValueError | TypeError | AttributeError | OverflowError => true
  | _ => false
  end.

Definition is_http (e : exn) : bool :=
  match e with HTTPException _ _ => true | _ => false end.

Definition is_bbox (e : exn) : bool :=
  match e with InvalidBoundingBoxError _ => true | _ => false end.

(** The body of the generic internal-error reply. *)
Definition internal_error_body : value :=
  VDict [("code", VInt 500); ("description", VStr InternalServerError_description)].

Definition http_error_body (code : Z) (description : string) : value :=
  VDict [("code", VInt code); ("description", VStr description)].

Definition reply_status (r : reply) : option Z :=
  match r with
  | Success _ => Some 200
  | Failure _ st => Some st
  | Unhandled _ => None
  end.

Definition demo_get (a : MultiDict) : request :=
  {| method := "GET"; args := a; req_headers := demo_accept;
     is_json := false; get_json := Raise (HTTPException 400 "Bad Request") |}.

(** A POST request whose parsed body is the object at location 0. *)
Definition demo_post (a : MultiDict) : request :=
  {| method := "POST"; args := a; req_headers := demo_accept;
     is_json := true; get_json := Ok 0%nat |}.

(** A step that reads the heap without writing to it, and raises nothing
    but Python's own exceptions. *)
Definition reader {A} (c : M A) : Prop :=
  forall h, (exists a, c h = (Ok a, h))
            \/ (exists e, c h = (Raise e, h) /\ builtin_exn e = true).

(** *** The structured form of a search

    The four filters as a caller means them, and what it is for a JSON
    body and for a query string to carry them: the body holds the lists
    and strings themselves, the query string their comma-joined forms; a
    filter left out is absent on both sides. *)

Inductive number : Type :=
| NInt (z : Z)
| NFloat (f : spec_float).

Definition value_of_number (n : number) : value :=
  match n with NInt z => VInt z | NFloat f => VFloat f end.

Record search_input : Type := {
  in_bbox : option (list number);
  in_datetime : option string;
  in_ids : option (list string);
  in_collections : option (list string)
}.

Definition opt_value {A} (f : A -> value) (o : option A) : value :=
  match o with Some x => f x | None => VNone end.

Definition carries_post (d : list (string * value)) (i : search_input) : Prop :=
  dict_get d "bbox" VNone = opt_value (fun ns => VList (map value_of_number ns)) (in_bbox i)
  /\ dict_get d "datetime" VNone = opt_value VStr (in_datetime i)
  /\ dict_get d "ids" VNone = opt_value (fun l => VList (map VStr l)) (in_ids i)
  /\ dict_get d "collections" VNone
     = opt_value (fun l => VList (map VStr l)) (in_collections i)
  /\ dict_get d "intersects" VNone = VNone
  /\ dict_get d "query" VNone = VNone.

Definition carries_get (a : MultiDict) (i : search_input) : Prop :=
  args_get a "bbox" VNone
  = opt_value (fun ns => VStr (join "," (map (fun n => py_str (value_of_number n)) ns)))
      (in_bbox i)
  /\ args_get a "datetime" VNone = opt_value VStr (in_datetime i)
  /\ args_get a "ids" VNone = opt_value (fun l => VStr (join "," l)) (in_ids i)
  /\ args_get a "collections" VNone
     = opt_value (fun l => VStr (join "," l)) (in_collections i).

(** Page and limit, given or left out, come to the same two integers. *)
Definition same_paging (a : MultiDict) (d : list (string * value)) (p l : Z) : Prop :=
  py_int (args_get a "page" (VInt 1)) = Ok p
  /\ py_int (dict_get d "page" (VInt 1)) = Ok p
  /\ py_int (args_get a "limit" (VInt 10)) = Ok l
  /\ py_int (dict_get d "limit" (VInt 10)) = Ok l.

Definition demo_input : search_input :=
  {| in_bbox := Some [NInt (-60); NInt (-10); NInt (-50); NInt 0];
     in_datetime := Some "2020-01-01/2020-12-31";
     in_ids := Some ["a"; "b"];
     in_collections := None |}.

Definition demo_query_string : MultiDict :=
  [ ("bbox", [VStr "-60,-10,-50,0"]);
    ("datetime", [VStr "2020-01-01/2020-12-31"]);
    ("ids", [VStr "a,b"]);
    ("limit", [VStr "2"]) ].

Definition demo_body : list (string * value) :=
  [ ("ids", VList [VStr "a"; VStr "b"]);
    ("bbox", VList [VInt (-60); VInt (-10); VInt (-50); VInt 0]);
    ("datetime", VStr "2020-01-01/2020-12-31");
    ("limit", VInt 2) ].

(** *** Links *)

(** How many links of a list have a given [rel]. *)
Definition count_rel (r : string) (ls : list link) : nat :=
  List.length (filter (fun l => String.eqb (rel l) r) ls).

(** The links of a search, by request shape. *)
Definition get_links (base : string) (a : MultiDict) (items' : Pagination) : list link :=
  ((if has_next items'
    then [plain_link (base ++ query_suffix (args_set a "page" (VInt (next_num items')))) "next"]
    else [])
   ++ (if has_prev items'
       then [plain_link (base ++ query_suffix (args_set a "page" (VInt (prev_num items')))) "prev"]
       else []))%list.

Definition post_links (a : MultiDict) (items' : Pagination) (n : nat) : list link :=
  ((if has_next items'
    then [post_link (plain_link (BASE_URL ++ "/search" ++ query_suffix a) "next") n]
    else [])
   ++ (if has_prev items'
       then [post_link (plain_link (BASE_URL ++ "/search" ++ query_suffix a) "prev")
               (if has_next items' then S n else n)]
       else []))%list.

Definition post_copies (d : list (string * value)) (items' : Pagination) : heap :=
  ((if has_next items' then [VDict (dict_set d "page" (VInt (next_num items')))] else [])
   ++ (if has_prev items' then [VDict (dict_set d "page" (VInt (prev_num items')))] else []))%list.

Definition other_links (a : MultiDict) (items' : Pagination) : list link :=
  ((if has_next items' then [plain_link (BASE_URL ++ "/search" ++ query_suffix a) "next"] else [])
   ++ (if has_prev items' then [plain_link (BASE_URL ++ "/search" ++ query_suffix a) "prev"]
       else []))%list.

(** A list has a link of a given [rel]. *)
Definition has_rel (r : string) (ls : list link) : Prop :=
  exists l, In l ls /\ rel l = r.

End Vocabulary.

(** *** More vocabulary: the body of a POST search read as a function

    What [stac_search] makes of a JSON object body, without the heap:
    the same steps in the same order. *)

Section BodyFields.
Context `{Builtins}.

Definition join_str_of (v : value) : result value :=
  match py_iter v with
  | Ok xs => Ok (VStr (join "," (map py_str xs)))
  | Raise e => Raise e
  end.

Definition join_plain_of (v : value) : result value :=
  match py_iter v with
  | Ok xs => match py_join "," xs with Ok s => Ok (VStr s) | Raise e => Raise e end
  | Raise e => Raise e
  end.

Definition post_fields (rj : loc) (d : list (string * value)) : result search_args :=
  let b := dict_get d "bbox" VNone in
  match (if is_none b then Ok b else join_str_of b) with
  | Raise e => Raise e
  | Ok b =>
      let i := dict_get d "ids" VNone in
      match (if is_none i then Ok i else join_plain_of i) with
      | Raise e => Raise e
      | Ok i =>
          let c := dict_get d "collections" VNone in
          match (if is_none c then Ok c else join_plain_of c) with
          | Raise e => Raise e
          | Ok c =>
              match py_int (dict_get d "page" (VInt 1)) with
              | Raise e => Raise e
              | Ok p =>
                  match py_int (dict_get d "limit" (VInt 10)) with
                  | Raise e => Raise e
                  | Ok l =>
                      Ok {| bbox := b; datetime := dict_get d "datetime" VNone;
                            ids := i; collections := c;
                            page := VInt p; limit := VInt l;
                            intersects := dict_get d "intersects" VNone;
                            query := dict_get d "query" VNone;
                            request_json := Some rj |}
                  end
              end
          end
      end
  end.

(** One step of the comprehension of [get_assets_kwargs] over the
    configured names: a name the request has a value for is kept. *)
Definition pick (req : request) (d : list (string * value)) (arg : string)
  : list (string * value) :=
  let v := args_get (args req) arg VNone in
  if is_none v then d else dict_set d arg v.

(** The keys of a dictionary are pairwise different. *)
Definition unique_keys {A} (d : list (string * A)) : Prop := NoDup (map fst d).

(** The items of a query string whose key is, or is not, [page]. *)
Definition page_items (its : list (string * value)) : list (string * value) :=
  filter (fun kv => String.eqb (fst kv) "page") its.

Definition other_items (its : list (string * value)) : list (string * value) :=
  filter (fun kv => negb (String.eqb (fst kv) "page")) its.

(** The five links the landing page always has. *)
Definition landing_rels : list string :=
  ["self"; "service-doc"; "conformance"; "data"; "search"].

End BodyFields.

(** * Properties *)

(** ** The after-request filter *)

Lemma compressibleP rh resp : compressibleb rh resp = true <-> compressible rh resp.
Proof.
  unfold compressibleb, compressible.
  rewrite !andb_true_iff, !negb_true_iff, Z.leb_le, Z.ltb_lt, Z.leb_le.
  tauto.
Qed.

Lemma same_key_refl k : same_key k k = true.
Proof. apply String.eqb_refl. Qed.

Lemma same_key_trans_false k1 k2 k :
  same_key k1 k2 = true -> same_key k k2 = false -> same_key k1 k = false.
Proof.
  unfold same_key. intros E N.
  apply String.eqb_eq in E. apply String.eqb_neq in N. apply String.eqb_neq.
  congruence.
Qed.

Lemma same_key_sym k k' : same_key k k' = same_key k' k.
Proof. apply String.eqb_sym. Qed.

Lemma headers_contains_app k h1 h2 :
  headers_contains k (h1 ++ h2)%list = headers_contains k h1 || headers_contains k h2.
Proof. apply existsb_app. Qed.

Lemma headers_getlist_app k h1 h2 :
  headers_getlist k (h1 ++ h2)%list
  = (headers_getlist k h1 ++ headers_getlist k h2)%list.
Proof. unfold headers_getlist. now rewrite filter_app, map_app. Qed.

Lemma cors_app h :
  cors h = (h ++ [("Access-Control-Allow-Origin", "*");
                  ("Access-Control-Allow-Headers", "Content-Type");
                  ("Access-Control-Allow-Methods", "GET, POST")])%list.
Proof. unfold cors, headers_add. now rewrite <- !app_assoc. Qed.

Lemma contains_cors h :
  headers_contains "Content-Encoding" (cors h) = headers_contains "Content-Encoding" h.
Proof. rewrite cors_app, headers_contains_app. cbn. apply orb_false_r. Qed.

Lemma getlist_cors k h :
  same_key "Access-Control-Allow-Origin" k = false ->
  same_key "Access-Control-Allow-Headers" k = false ->
  same_key "Access-Control-Allow-Methods" k = false ->
  headers_getlist k (cors h) = headers_getlist k h.
Proof.
  intros A B C. rewrite cors_app, headers_getlist_app.
  unfold headers_getlist at 2. cbn [filter fst]. rewrite A, B, C. cbn.
  apply app_nil_r.
Qed.

Lemma getlist_filter_out k h :
  headers_getlist k (filter (fun kv => negb (same_key (fst kv) k)) h) = [].
Proof.
  unfold headers_getlist. induction h as [|[k' v'] t IH]; cbn; [reflexivity|].
  destruct (same_key k' k) eqn:E; cbn; [exact IH|]. now rewrite E.
Qed.

Lemma getlist_filter_other k k2 h :
  same_key k k2 = false ->
  headers_getlist k (filter (fun kv => negb (same_key (fst kv) k2)) h)
  = headers_getlist k h.
Proof.
  intros N. unfold headers_getlist.
  induction h as [|[k' v'] t IH]; cbn; [reflexivity|].
  destruct (same_key k' k2) eqn:E; cbn.
  - rewrite (same_key_trans_false _ _ _ E N). exact IH.
  - destruct (same_key k' k); cbn; now rewrite IH.
Qed.

Lemma getlist_set_same k v h : headers_getlist k (headers_set k v h) = [v].
Proof.
  induction h as [|[k' v'] t IH]; cbn.
  - unfold headers_getlist. cbn. now rewrite same_key_refl.
  - destruct (same_key k' k) eqn:E.
    + unfold headers_getlist. cbn [filter fst]. rewrite same_key_refl. cbn [map snd].
      f_equal. apply getlist_filter_out.
    + unfold headers_getlist in *. cbn. rewrite E. exact IH.
Qed.

Lemma getlist_set_other k k2 v h :
  same_key k k2 = false ->
  headers_getlist k (headers_set k2 v h) = headers_getlist k h.
Proof.
  intros N. induction h as [|[k' v'] t IH]; cbn.
  - unfold headers_getlist. cbn. rewrite same_key_sym. now rewrite N.
  - destruct (same_key k' k2) eqn:E.
    + unfold headers_getlist. cbn [filter fst].
      rewrite (same_key_sym k2 k), N, (same_key_trans_false _ _ _ E N).
      apply (getlist_filter_other k k2 t N).
    + unfold headers_getlist in *. cbn. destruct (same_key k' k); cbn; now rewrite IH.
Qed.

Lemma contains_set_same k v h : headers_contains k (headers_set k v h) = true.
Proof.
  induction h as [|[k' v'] t IH]; cbn.
  - now rewrite same_key_refl.
  - destruct (same_key k' k) eqn:E; cbn.
    + now rewrite same_key_refl.
    + now rewrite E.
Qed.

Lemma contains_set_mono k k2 v h :
  headers_contains k h = true -> same_key k k2 = false ->
  headers_contains k (headers_set k2 v h) = true.
Proof.
  intros C N. induction h as [|[k' v'] t IH]; cbn in *; [discriminate|].
  destruct (same_key k' k2) eqn:E; cbn.
  - rewrite (same_key_trans_false _ _ _ E N) in C. cbn in C.
    rewrite (same_key_sym k2 k), N. cbn.
    clear IH. induction t as [|[k'' v''] t IH]; cbn in *; [discriminate|].
    destruct (same_key k'' k2) eqn:E2; cbn.
    + rewrite (same_key_trans_false _ _ _ E2 N) in C. auto.
    + destruct (same_key k'' k); cbn in *; auto.
  - destruct (same_key k' k); cbn in *; auto.
Qed.

Section Filter.
Context `{Builtins}.

Lemma after_request_cases rh resp :
  after_request rh resp
  = if compressibleb rh resp then compressed resp
    else with_headers (cors (resp_headers resp)) resp.
Proof.
  unfold after_request, compressibleb, compressed, set_data, with_headers.
  cbn [status_code direct_passthrough data resp_headers].
  rewrite contains_cors.
  destruct (status_code resp <? 200) eqn:E1; cbn.
  { replace (200 <=? status_code resp) with false by lia. reflexivity. }
  replace (200 <=? status_code resp) with true by lia. cbn.
  destruct (status_code resp >=? 300) eqn:E2; cbn.
  { replace (status_code resp <? 300) with false by lia. reflexivity. }
  replace (status_code resp <? 300) with true by lia. cbn.
  destruct (direct_passthrough resp); cbn; [reflexivity|].
  destruct (len (data resp) <? 500) eqn:E3; cbn.
  { replace (500 <=? len (data resp)) with false by lia. reflexivity. }
  replace (500 <=? len (data resp)) with true by lia. cbn.
  destruct (contains "gzip" (lower (headers_get "Accept-Encoding" "" rh))); cbn; [|reflexivity].
  destruct (headers_contains "Content-Encoding" (resp_headers resp)); cbn; reflexivity.
Qed.

Lemma compressed_encoding resp :
  headers_getlist "Content-Encoding" (resp_headers (compressed resp)) = ["gzip"].
Proof.
  unfold compressed. cbn [resp_headers].
  rewrite getlist_set_other by reflexivity. apply getlist_set_same.
Qed.

Lemma compressed_length resp :
  headers_getlist "Content-Length" (resp_headers (compressed resp))
  = [str_int (len (gzip_compress (data resp)))].
Proof. unfold compressed. cbn [resp_headers data]. apply getlist_set_same. Qed.

Lemma compressed_has_encoding resp :
  headers_contains "Content-Encoding" (resp_headers (compressed resp)) = true.
Proof.
  unfold compressed. cbn [resp_headers].
  apply contains_set_mono; [|reflexivity]. apply contains_set_same.
Qed.

End Filter.

(** C1: the filter compresses the body exactly when the five conditions
    hold together (success status, no direct passthrough, at least 500
    bytes, Accept-Encoding containing gzip in any case, no
    Content-Encoding yet).  When they hold the body becomes its gzip
    compression, Content-Encoding is gzip and Content-Length is the
    length of the compressed body; when one fails the body is the one
    that came in and only the CORS headers are added. *)
Theorem after_request_compresses_iff `{Builtins} (rh : headers) (resp : response) :
  (compressible rh resp ->
     data (after_request rh resp) = gzip_compress (data resp)
     /\ headers_getlist "Content-Encoding" (resp_headers (after_request rh resp)) = ["gzip"]
     /\ headers_getlist "Content-Length" (resp_headers (after_request rh resp))
        = [str_int (len (data (after_request rh resp)))])
  /\ (~ compressible rh resp ->
        data (after_request rh resp) = data resp
        /\ resp_headers (after_request rh resp) = cors (resp_headers resp)).
Proof.
  rewrite after_request_cases. split; intros C.
  - apply compressibleP in C. rewrite C.
    split; [reflexivity|]. split; [apply compressed_encoding|apply compressed_length].
  - destruct (compressibleb rh resp) eqn:E.
    + exfalso. apply C, compressibleP, E.
    + split; reflexivity.
Qed.

Lemma after_request_compresses_iff_witness :
  data (@after_request demo_builtins demo_accept (demo_response 500 false))
  = @gzip_compress demo_builtins (repeat x00 500)
  /\ headers_getlist "Content-Encoding"
       (resp_headers (@after_request demo_builtins demo_accept (demo_response 500 false)))
     = ["gzip"]
  /\ headers_getlist "Content-Length"
       (resp_headers (@after_request demo_builtins demo_accept (demo_response 500 false)))
     = ["502"].
Proof.
  apply (proj1 (@after_request_compresses_iff demo_builtins demo_accept (demo_response 500 false))).
  apply compressibleP. vm_compute. reflexivity.
Defined.

(** C8, as stated, fails: a 404 response leaves the filter with three
    more headers than it came with. *)
Lemma after_request_frame_counterexample :
  ~ (forall (B : Builtins) (rh : headers) (resp : response),
        status_code resp < 200 \/ 300 <= status_code resp
        \/ direct_passthrough resp = true \/ len (data resp) < 500 ->
        resp_headers (after_request rh resp) = resp_headers resp
        /\ data (after_request rh resp) = data resp).
Proof.
  intros C.
  destruct (C demo_builtins [] demo_not_found) as [Hh _].
  - right. left. cbn. lia.
  - vm_compute in Hh. discriminate Hh.
Qed.

(** C8, amended: on a response whose status is outside [200,300), or that
    is a direct passthrough, or whose body is shorter than 500 bytes, the
    filter leaves status, passthrough flag and body as they are, and the
    headers are the incoming ones followed by the three CORS headers and
    nothing else. *)
Theorem after_request_frame `{Builtins} (rh : headers) (resp : response) :
  status_code resp < 200 \/ 300 <= status_code resp
  \/ direct_passthrough resp = true \/ len (data resp) < 500 ->
  data (after_request rh resp) = data resp
  /\ status_code (after_request rh resp) = status_code resp
  /\ direct_passthrough (after_request rh resp) = direct_passthrough resp
  /\ resp_headers (after_request rh resp)
     = (resp_headers resp
        ++ [("Access-Control-Allow-Origin", "*");
            ("Access-Control-Allow-Headers", "Content-Type");
            ("Access-Control-Allow-Methods", "GET, POST")])%list.
Proof.
  intros C. rewrite after_request_cases.
  assert (E : compressibleb rh resp = false).
  { destruct (compressibleb rh resp) eqn:E; [|reflexivity].
    apply compressibleP in E. destruct E as (S & P & L & _).
    destruct C as [C|[C|[C|C]]]; try lia. congruence. }
  rewrite E. cbn. repeat split. apply cors_app.
Qed.

Lemma after_request_frame_witness :
  data (@after_request demo_builtins demo_accept demo_not_found) = []
  /\ status_code (@after_request demo_builtins demo_accept demo_not_found) = 404
  /\ direct_passthrough (@after_request demo_builtins demo_accept demo_not_found) = false
  /\ resp_headers (@after_request demo_builtins demo_accept demo_not_found)
     = [("Content-Type", "application/json");
        ("Access-Control-Allow-Origin", "*");
        ("Access-Control-Allow-Headers", "Content-Type");
        ("Access-Control-Allow-Methods", "GET, POST")].
Proof.
  apply (@after_request_frame demo_builtins demo_accept demo_not_found).
  right. left. cbn. lia.
Defined.

(** C9, as stated, fails: a 500-byte success body served as a direct
    passthrough to a caller that accepts gzip is not compressed. *)
Lemma after_request_threshold_counterexample :
  ~ (forall (B : Builtins) (rh : headers) (resp : response),
        200 <= status_code resp < 300 ->
        len (data resp) = 500 ->
        contains "gzip" (lower (headers_get "Accept-Encoding" "" rh)) = true ->
        data (after_request rh resp) = gzip_compress (data resp)).
Proof.
  intros C.
  specialize (C demo_builtins demo_accept (demo_response 500 true)).
  assert (E : data (@after_request demo_builtins demo_accept (demo_response 500 true))
              = repeat x00 500) by (vm_compute; reflexivity).
  rewrite E in C.
  assert (L : List.length (repeat x00 500)
              = List.length (@gzip_compress demo_builtins (data (demo_response 500 true)))).
  { f_equal. apply C; [cbn; lia | reflexivity | vm_compute; reflexivity]. }
  vm_compute in L. discriminate L.
Qed.

(** C9, amended: a response that already carries Content-Encoding keeps
    its body and its Content-Encoding values; a response the filter has
    compressed is left alone by a further pass, for whatever request, and
    carries the single Content-Encoding value gzip; a second pass for the
    same request never changes the body again; a 499-byte body is never
    compressed; and a 500-byte success body with Accept-Encoding gzip
    that is not a direct passthrough and has no Content-Encoding yet is
    compressed, with Content-Length the length of the compressed body. *)
Theorem after_request_idempotent `{Builtins} (rh rh' : headers) (resp : response) :
  (headers_contains "Content-Encoding" (resp_headers resp) = true ->
     data (after_request rh resp) = data resp
     /\ headers_getlist "Content-Encoding" (resp_headers (after_request rh resp))
        = headers_getlist "Content-Encoding" (resp_headers resp))
  /\ (compressible rh resp ->
        data (after_request rh' (after_request rh resp)) = data (after_request rh resp)
        /\ headers_getlist "Content-Encoding"
             (resp_headers (after_request rh' (after_request rh resp))) = ["gzip"])
  /\ data (after_request rh (after_request rh resp)) = data (after_request rh resp)
  /\ (len (data resp) = 499 -> data (after_request rh resp) = data resp)
  /\ (len (data resp) = 500 ->
      200 <= status_code resp < 300 ->
      contains "gzip" (lower (headers_get "Accept-Encoding" "" rh)) = true ->
      direct_passthrough resp = false ->
      headers_contains "Content-Encoding" (resp_headers resp) = false ->
      data (after_request rh resp) = gzip_compress (data resp)
      /\ headers_getlist "Content-Length" (resp_headers (after_request rh resp))
         = [str_int (len (gzip_compress (data resp)))]).
Proof.
  assert (Pre : forall r q,
             headers_contains "Content-Encoding" (resp_headers q) = true ->
             after_request r q = with_headers (cors (resp_headers q)) q).
  { intros r q C. rewrite after_request_cases.
    replace (compressibleb r q) with false; [reflexivity|].
    unfold compressibleb. rewrite C. cbn. now rewrite !andb_false_r. }
  split; [|split; [|split; [|split]]].
  - intros C. rewrite (Pre _ _ C). cbn. split; [reflexivity|].
    now apply getlist_cors.
  - intros C. apply compressibleP in C.
    rewrite (after_request_cases rh resp), C.
    rewrite (Pre _ _ (compressed_has_encoding resp)). cbn [data resp_headers with_headers].
    split; [reflexivity|].
    rewrite getlist_cors by reflexivity. apply compressed_encoding.
  - rewrite (after_request_cases rh resp).
    destruct (compressibleb rh resp) eqn:E.
    + now rewrite (Pre _ _ (compressed_has_encoding resp)).
    + rewrite after_request_cases.
      replace (compressibleb rh (with_headers (cors (resp_headers resp)) resp)) with false;
        [reflexivity|].
      unfold compressibleb in *. cbn [status_code direct_passthrough data resp_headers with_headers].
      rewrite contains_cors. now rewrite E.
  - intros L. rewrite after_request_cases.
    replace (compressibleb rh resp) with false; [reflexivity|].
    unfold compressibleb. replace (500 <=? len (data resp)) with false by lia.
    now rewrite !andb_false_r.
  - intros L S A P C. rewrite after_request_cases.
    replace (compressibleb rh resp) with true.
    + split; [reflexivity|apply compressed_length].
    + symmetry. apply compressibleP. unfold compressible. repeat split; try tauto; lia.
Qed.

Lemma after_request_idempotent_witness :
  (data (@after_request demo_builtins []
           (@after_request demo_builtins demo_accept (demo_response 500 false)))
   = data (@after_request demo_builtins demo_accept (demo_response 500 false))
   /\ headers_getlist "Content-Encoding"
        (resp_headers (@after_request demo_builtins []
           (@after_request demo_builtins demo_accept (demo_response 500 false))))
      = ["gzip"])
  /\ (data (@after_request demo_builtins demo_accept (demo_response 500 false))
      = @gzip_compress demo_builtins (repeat x00 500)
      /\ headers_getlist "Content-Length"
           (resp_headers (@after_request demo_builtins demo_accept (demo_response 500 false)))
         = ["502"])
  /\ data (@after_request demo_builtins demo_accept (demo_response 499 false))
     = repeat x00 499.
Proof.
  pose proof (@after_request_idempotent demo_builtins demo_accept [] (demo_response 500 false))
    as (_ & Twice & _ & _ & Threshold).
  pose proof (@after_request_idempotent demo_builtins demo_accept [] (demo_response 499 false))
    as (_ & _ & _ & Below & _).
  split; [|split].
  - apply Twice. apply compressibleP. vm_compute. reflexivity.
  - apply Threshold; try reflexivity. cbn. lia.
  - apply Below. reflexivity.
Defined.

(** ** Error handlers *)

Lemma find_handler_generic `{Builtins} e :
  is_bbox e = false -> find_error_handler e = Some handle_exception.
Proof. destruct e; intros B; try discriminate B; reflexivity. Qed.

Lemma dispatch_raise `{Builtins} (view : M feature_collection) h h' e :
  view h = (Raise e, h') ->
  is_bbox e = false ->
  dispatch_request view h
  = (Failure (fst (fst (handle_exception e))) (snd (fst (handle_exception e))), h',
     snd (handle_exception e)).
Proof.
  intros V B. unfold dispatch_request. rewrite V, (find_handler_generic e B).
  destruct (handle_exception e) as [[b st] lg]. reflexivity.
Qed.

Lemma dispatch_builtin `{Builtins} (view : M feature_collection) h h' e :
  view h = (Raise e, h') ->
  builtin_exn e = true ->
  dispatch_request view h = (Failure internal_error_body 500, h', [e]).
Proof.
  intros V B. rewrite (dispatch_raise view h h' e V); destruct e; try discriminate B; reflexivity.
Qed.

(** C3, as stated, fails: the description sent for an unexpected failure
    is werkzeug's sentence, not the three words of the status name. *)
Lemma handle_exception_description_counterexample :
  ~ (forall (B : Builtins) (e : exn),
        is_http e = false ->
        fst (handle_exception e)
        = (VDict [("code", VInt 500); ("description", VStr "Internal Server Error")], 500)).
Proof.
  intros C. specialize (C demo_builtins ValueError eq_refl).
  vm_compute in C. discriminate C.
Qed.

(** C3, amended: a structured HTTP-level failure with status [code] and
    description [description] is answered with exactly that code and
    description in the body and [code] as status, and nothing is logged;
    any other failure is logged and answered with status 500 and the
    body made of the code 500 and werkzeug's fixed
    [InternalServerError.description], whatever the failure was.  This is
    what [handle_exception] returns, and it is what the caller gets for
    every failure of a view other than an invalid bounding box. *)
Theorem handle_exception_shape `{Builtins} (view : M feature_collection) (h h' : heap) (e : exn) :
  (forall code description, e = HTTPException code description ->
     handle_exception e = ((http_error_body code description, code), []))
  /\ (is_http e = false ->
        handle_exception e = ((internal_error_body, 500), [e])
        /\ forall e', is_http e' = false ->
             fst (handle_exception e') = fst (handle_exception e))
  /\ (view h = (Raise e, h') ->
      is_bbox e = false ->
      dispatch_request view h
      = match e with
        | HTTPException code description =>
            (Failure (http_error_body code description) code, h', [])
        | _ => (Failure internal_error_body 500, h', [e])
        end).
Proof.
  split; [|split].
  - intros code description ->. reflexivity.
  - intros N. split.
    + destruct e; try discriminate N; reflexivity.
    + intros e' N'. destruct e; try discriminate N; destruct e'; try discriminate N'; reflexivity.
  - intros V B. rewrite (dispatch_raise view h h' e V B).
    destruct e; try discriminate B; reflexivity.
Qed.

Lemma handle_exception_shape_witness :
  @dispatch_request demo_builtins (abort 404 "Collection not found.") []
  = (Failure (http_error_body 404 "Collection not found.") 404, [], []).
Proof.
  apply (proj2 (proj2 (@handle_exception_shape demo_builtins
                         (abort 404 "Collection not found.") [] []
                         (HTTPException 404 "Collection not found."))));
    reflexivity.
Defined.

(** C4: an [InvalidBoundingBoxError] is answered with status 400 and the
    body made of the string code 400 and the error's message.  Both
    registered handlers match such an error (the generic one through the
    base class), and the one registered for the class itself is the one
    that runs. *)
Theorem handle_exception_bbox_shape `{Builtins} (view : M feature_collection) (h h' : heap)
    (message : string) :
  handle_exception_bbox (InvalidBoundingBoxError message)
  = ((VDict [("code", VStr "400"); ("description", VStr message)], 400), [])
  /\ In CException (mro (class_of (InvalidBoundingBoxError message)))
  /\ lookup_handler CException error_handlers = Some handle_exception
  /\ find_error_handler (InvalidBoundingBoxError message) = Some handle_exception_bbox
  /\ (view h = (Raise (InvalidBoundingBoxError message), h') ->
      dispatch_request view h
      = (Failure (VDict [("code", VStr "400"); ("description", VStr message)]) 400, h', [])).
Proof.
  repeat split.
  - cbn. auto.
  - intros V. unfold dispatch_request. rewrite V. reflexivity.
Qed.

Lemma handle_exception_bbox_shape_witness :
  @dispatch_request demo_builtins
    (@stac_search demo_builtins demo_deployment [] "" (demo_get [("bbox", [VStr "1,2,3"])])) []
  = (Failure (VDict [("code", VStr "400");
                     ("description", VStr "bbox needs four numbers")]) 400, [], []).
Proof.
  apply (proj2 (proj2 (proj2 (proj2
           (@handle_exception_bbox_shape demo_builtins
              (@stac_search demo_builtins demo_deployment [] ""
                 (demo_get [("bbox", [VStr "1,2,3"])]))
              [] [] "bbox needs four numbers"))))).
  vm_compute. reflexivity.
Defined.

(** ** The search arguments *)

Section SearchArguments.
Context `{Builtins} `{Deployment}.

Lemma int_of_float_builtin f e : int_of_float f = Raise e -> builtin_exn e = true.
Proof. destruct f; cbn; intros E; inversion E; reflexivity. Qed.

Lemma py_int_builtin v e : py_int v = Raise e -> builtin_exn e = true.
Proof.
  destruct v; cbn; intros E; try (inversion E; reflexivity).
  - now apply int_of_float_builtin in E.
  - destruct (int_of_str s); inversion E. reflexivity.
Qed.

Lemma py_iter_builtin v e : py_iter v = Raise e -> builtin_exn e = true.
Proof. destruct v; cbn; intros E; inversion E; reflexivity. Qed.

Lemma strings_of_builtin xs e : strings_of xs = Raise e -> builtin_exn e = true.
Proof.
  induction xs as [|x t IH]; cbn; [discriminate|].
  destruct x; try (intros E; inversion E; reflexivity).
  destruct (strings_of t); intros E; inversion E. subst. now apply IH.
Qed.

Lemma reader_ret {A} (a : A) : reader (ret a).
Proof. intros h. left. now exists a. Qed.

Lemma reader_join_str v : reader (join_str v).
Proof.
  intros h. unfold join_str, bind, lift, ret.
  destruct (py_iter v) eqn:E.
  - left. eauto.
  - right. eexists. split; [reflexivity|]. eapply py_iter_builtin, E.
Qed.

Lemma reader_join_plain v : reader (join_plain v).
Proof.
  intros h. unfold join_plain, bind, lift, ret, py_join.
  destruct (py_iter v) eqn:E.
  - destruct (strings_of a) eqn:S.
    + left. eauto.
    + right. eexists. split; [reflexivity|]. eapply strings_of_builtin, S.
  - right. eexists. split; [reflexivity|]. eapply py_iter_builtin, E.
Qed.

Lemma reader_optional (f : value -> M value) v :
  (forall x, reader (f x)) -> reader (if is_none v then ret v else f v).
Proof. intros F. destruct (is_none v); [apply reader_ret|apply F]. Qed.

Lemma obj_get_dict rj d key default h :
  nth rj h VNone = VDict d ->
  obj_get rj key default h = (Ok (dict_get d key default), h).
Proof. intros E. unfold obj_get, bind, load. now rewrite E. Qed.

Lemma stac_search_raise roles tok req h h' e :
  search_arguments req h = (Raise e, h') ->
  stac_search roles tok req h = (Raise e, h').
Proof. intros E. unfold stac_search, bind at 1. now rewrite E. Qed.

Lemma search_arguments_get req h :
  method req = "GET" ->
  search_arguments req h
  = match py_int (args_get (args req) "page" (VInt 1)),
          py_int (args_get (args req) "limit" (VInt 10)) with
    | Ok p, Ok l =>
        (Ok {| bbox := args_get (args req) "bbox" VNone;
               datetime := args_get (args req) "datetime" VNone;
               ids := args_get (args req) "ids" VNone;
               collections := args_get (args req) "collections" VNone;
               page := VInt p; limit := VInt l;
               intersects := VNone; query := VNone; request_json := None |}, h)
    | Ok _, Raise e => (Raise e, h)
    | Raise e, _ => (Raise e, h)
    end.
Proof.
  intros G. unfold search_arguments. rewrite G. cbn [String.eqb].
  change (("GET" =? "POST")%string) with false. change (("GET" =? "GET")%string) with true.
  cbv iota. unfold bind, lift, ret.
  destruct (py_int (args_get (args req) "page" (VInt 1)));
    destruct (py_int (args_get (args req) "limit" (VInt 10))); reflexivity.
Qed.

Lemma search_arguments_get_raises req h :
  method req = "GET" ->
  (exists e, py_int (args_get (args req) "page" (VInt 1)) = Raise e)
  \/ (exists e, py_int (args_get (args req) "limit" (VInt 10)) = Raise e) ->
  exists e, search_arguments req h = (Raise e, h) /\ builtin_exn e = true.
Proof.
  intros G E. rewrite (search_arguments_get req h G).
  destruct (py_int (args_get (args req) "page" (VInt 1))) eqn:P.
  - destruct E as [[e E]|[e E]]; [discriminate E|]. rewrite E.
    exists e. split; [reflexivity|]. eapply py_int_builtin, E.
  - exists e. split; [reflexivity|]. eapply py_int_builtin, P.
Qed.

(** Running a reader and going on: either it raised, or the rest runs on
    the same heap. *)
Ltac step_reader R :=
  let a := fresh "a" in let e := fresh "e" in
  let E := fresh "E" in let B := fresh "B" in
  unfold bind at 1;
  match goal with
  | |- context [?c ?h] =>
      match type of R with
      | reader c =>
          destruct (R h) as [[a E]|[e [E B]]]; rewrite E;
          [|exists e; split; [reflexivity|exact B]]
      end
  end.

Lemma search_arguments_post_raises req h rj d :
  method req = "POST" ->
  is_json req = true ->
  get_json req = Ok rj ->
  nth rj h VNone = VDict d ->
  (exists e, py_int (dict_get d "page" (VInt 1)) = Raise e)
  \/ (exists e, py_int (dict_get d "limit" (VInt 10)) = Raise e) ->
  exists e, search_arguments req h = (Raise e, h) /\ builtin_exn e = true.
Proof.
  intros P J G D E. unfold search_arguments. rewrite P, J, G.
  change (("POST" =? "POST")%string) with true. cbv iota.
  unfold bind at 1. unfold lift at 1.
  unfold bind at 1. rewrite (obj_get_dict rj d "bbox" VNone h D).
  step_reader (reader_optional join_str (dict_get d "bbox" VNone) reader_join_str).
  unfold bind at 1. rewrite (obj_get_dict rj d "datetime" VNone h D).
  unfold bind at 1. rewrite (obj_get_dict rj d "ids" VNone h D).
  step_reader (reader_optional join_plain (dict_get d "ids" VNone) reader_join_plain).
  unfold bind at 1. rewrite (obj_get_dict rj d "intersects" VNone h D).
  unfold bind at 1. rewrite (obj_get_dict rj d "query" VNone h D).
  unfold bind at 1. rewrite (obj_get_dict rj d "collections" VNone h D).
  step_reader (reader_optional join_plain (dict_get d "collections" VNone) reader_join_plain).
  unfold bind at 1. rewrite (obj_get_dict rj d "page" (VInt 1) h D).
  unfold bind at 1. unfold lift at 1.
  destruct (py_int (dict_get d "page" (VInt 1))) eqn:Pg.
  - unfold bind at 1. rewrite (obj_get_dict rj d "limit" (VInt 10) h D).
    unfold bind at 1. unfold lift at 1.
    destruct E as [[e E]|[e E]]; [discriminate E|]. rewrite E.
    exists e. split; [reflexivity|]. eapply py_int_builtin, E.
  - exists e. split; [reflexivity|]. eapply py_int_builtin, Pg.
Qed.

End SearchArguments.

(** C2, as stated, fails: [GET /search?page=abc] is answered with status
    500, not 400. *)
Lemma non_integer_page_counterexample :
  ~ (forall (B : Builtins) (D : Deployment) roles tok req h,
        method req = "GET" ->
        (exists e, py_int (args_get (args req) "page" (VInt 1)) = Raise e) ->
        reply_status (fst (fst (dispatch_request (stac_search roles tok req) h))) = Some 400).
Proof.
  intros C.
  specialize (C demo_builtins demo_deployment [] "" (demo_get [("page", [VStr "abc"])]) []
                eq_refl (ex_intro _ ValueError eq_refl)).
  vm_compute in C. discriminate C.
Qed.

(** C2, amended: a search request whose [page] or [limit] value cannot be
    coerced to an integer (a GET request, or a POST request whose JSON
    body is an object) fails as an unexpected failure: [int] raises one of
    Python's own exceptions, no handler turns it into a 400, and the
    caller gets status 500 with the generic internal-error body. *)
Theorem non_integer_page_is_internal_error `{Builtins} `{Deployment}
    (roles : list string) (tok : string) (req : request) (h : heap) :
  (method req = "GET" ->
   (exists e, py_int (args_get (args req) "page" (VInt 1)) = Raise e)
   \/ (exists e, py_int (args_get (args req) "limit" (VInt 10)) = Raise e) ->
   exists e,
     builtin_exn e = true
     /\ dispatch_request (stac_search roles tok req) h
        = (Failure internal_error_body 500, h, [e]))
  /\ (forall rj d,
        method req = "POST" ->
        is_json req = true ->
        get_json req = Ok rj ->
        nth rj h VNone = VDict d ->
        (exists e, py_int (dict_get d "page" (VInt 1)) = Raise e)
        \/ (exists e, py_int (dict_get d "limit" (VInt 10)) = Raise e) ->
        exists e,
          builtin_exn e = true
          /\ dispatch_request (stac_search roles tok req) h
             = (Failure internal_error_body 500, h, [e])).
Proof.
  split.
  - intros G E. destruct (search_arguments_get_raises req h G E) as [e [R B]].
    exists e. split; [exact B|].
    apply dispatch_builtin; [|exact B]. now apply stac_search_raise.
  - intros rj d P J G D E.
    destruct (search_arguments_post_raises req h rj d P J G D E) as [e [R B]].
    exists e. split; [exact B|].
    apply dispatch_builtin; [|exact B]. now apply stac_search_raise.
Qed.

Lemma non_integer_page_is_internal_error_witness :
  (exists e,
      builtin_exn e = true
      /\ @dispatch_request demo_builtins
           (@stac_search demo_builtins demo_deployment [] ""
              (demo_get [("page", [VStr "abc"])])) []
         = (Failure (@internal_error_body demo_builtins) 500, [], [e]))
  /\ (exists e,
         builtin_exn e = true
         /\ @dispatch_request demo_builtins
              (@stac_search demo_builtins demo_deployment [] "" (demo_post []))
              [VDict [("limit", VStr "ten")]]
            = (Failure (@internal_error_body demo_builtins) 500,
               [VDict [("limit", VStr "ten")]], [e])).
Proof.
  split.
  - apply (proj1 (@non_integer_page_is_internal_error demo_builtins demo_deployment [] ""
                    (demo_get [("page", [VStr "abc"])]) [])).
    + reflexivity.
    + left. exists ValueError. reflexivity.
  - apply (proj2 (@non_integer_page_is_internal_error demo_builtins demo_deployment [] ""
                    (demo_post []) [VDict [("limit", VStr "ten")]])
             0%nat [("limit", VStr "ten")]); try reflexivity.
    right. exists ValueError. reflexivity.
Defined.

(** ** GET and POST forms of one search *)

Section GetPost.
Context `{Builtins} `{Deployment}.

Lemma strings_of_strs l : strings_of (map VStr l) = Ok l.
Proof. induction l as [|s t IH]; cbn; [reflexivity|]. now rewrite IH. Qed.

Lemma join_plain_strs l h :
  join_plain (VList (map VStr l)) h = (Ok (VStr (join "," l)), h).
Proof.
  unfold join_plain, bind, lift, ret, py_join. cbn [py_iter].
  now rewrite strings_of_strs.
Qed.

Lemma join_str_numbers ns h :
  join_str (VList (map value_of_number ns)) h
  = (Ok (VStr (join "," (map (fun n => py_str (value_of_number n)) ns))), h).
Proof.
  unfold join_str, bind, lift, ret. cbn [py_iter]. now rewrite map_map.
Qed.

Lemma search_arguments_post req h rj d i p l :
  method req = "POST" ->
  is_json req = true ->
  get_json req = Ok rj ->
  nth rj h VNone = VDict d ->
  carries_post d i ->
  py_int (dict_get d "page" (VInt 1)) = Ok p ->
  py_int (dict_get d "limit" (VInt 10)) = Ok l ->
  search_arguments req h
  = (Ok {| bbox := opt_value
                     (fun ns => VStr (join "," (map (fun n => py_str (value_of_number n)) ns)))
                     (in_bbox i);
           datetime := opt_value VStr (in_datetime i);
           ids := opt_value (fun l => VStr (join "," l)) (in_ids i);
           collections := opt_value (fun l => VStr (join "," l)) (in_collections i);
           page := VInt p; limit := VInt l;
           intersects := VNone; query := VNone;
           request_json := Some rj |}, h).
Proof.
  intros P J G D (Cb & Cd & Ci & Cc & Cs & Cq) Pg Lm.
  unfold search_arguments. rewrite P, J, G.
  change (("POST" =? "POST")%string) with true. cbv iota.
  unfold bind at 1. unfold lift at 1.
  unfold bind at 1. rewrite (obj_get_dict rj d "bbox" VNone h D), Cb.
  unfold bind at 1.
  replace ((if is_none (opt_value (fun ns => VList (map value_of_number ns)) (in_bbox i))
            then ret (opt_value (fun ns => VList (map value_of_number ns)) (in_bbox i))
            else join_str (opt_value (fun ns => VList (map value_of_number ns)) (in_bbox i))) h)
    with (Ok (opt_value
                (fun ns => VStr (join "," (map (fun n => py_str (value_of_number n)) ns)))
                (in_bbox i)), h)
    by (destruct (in_bbox i); cbn [opt_value is_none];
        [now rewrite join_str_numbers|reflexivity]).
  unfold bind at 1. rewrite (obj_get_dict rj d "datetime" VNone h D), Cd.
  unfold bind at 1. rewrite (obj_get_dict rj d "ids" VNone h D), Ci.
  unfold bind at 1.
  replace ((if is_none (opt_value (fun l => VList (map VStr l)) (in_ids i))
            then ret (opt_value (fun l => VList (map VStr l)) (in_ids i))
            else join_plain (opt_value (fun l => VList (map VStr l)) (in_ids i))) h)
    with (Ok (opt_value (fun l => VStr (join "," l)) (in_ids i)), h)
    by (destruct (in_ids i); cbn [opt_value is_none];
        [now rewrite join_plain_strs|reflexivity]).
  unfold bind at 1. rewrite (obj_get_dict rj d "intersects" VNone h D), Cs.
  unfold bind at 1. rewrite (obj_get_dict rj d "query" VNone h D), Cq.
  unfold bind at 1. rewrite (obj_get_dict rj d "collections" VNone h D), Cc.
  unfold bind at 1.
  replace ((if is_none (opt_value (fun l => VList (map VStr l)) (in_collections i))
            then ret (opt_value (fun l => VList (map VStr l)) (in_collections i))
            else join_plain (opt_value (fun l => VList (map VStr l)) (in_collections i))) h)
    with (Ok (opt_value (fun l => VStr (join "," l)) (in_collections i)), h)
    by (destruct (in_collections i); cbn [opt_value is_none];
        [now rewrite join_plain_strs|reflexivity]).
  unfold bind at 1. rewrite (obj_get_dict rj d "page" (VInt 1) h D).
  unfold bind at 1. unfold lift at 1. rewrite Pg.
  unfold bind at 1. rewrite (obj_get_dict rj d "limit" (VInt 10) h D).
  unfold bind at 1. unfold lift at 1. rewrite Lm.
  reflexivity.
Qed.

End GetPost.

(** C5: a GET request whose query string carries the comma-joined forms
    of the four filters and a POST request whose JSON body carries their
    structured forms are both accepted, and the catalog store is called
    with the same keyword arguments for both. *)
Theorem get_post_same_query `{Builtins}
    (roles : list string) (i : search_input) (g p : request)
    (rj : loc) (d : list (string * value)) (h : heap) (pg lm : Z) :
  method g = "GET" ->
  carries_get (args g) i ->
  method p = "POST" ->
  is_json p = true ->
  get_json p = Ok rj ->
  nth rj h VNone = VDict d ->
  carries_post d i ->
  same_paging (args g) d pg lm ->
  exists qg qp,
    search_arguments g h = (Ok qg, h)
    /\ search_arguments p h = (Ok qp, h)
    /\ search_kwargs roles qg = search_kwargs roles qp
    /\ search_kwargs roles qg
       = [ ("collections", opt_value (fun l => VStr (join "," l)) (in_collections i));
           ("roles", VList (map VStr roles));
           ("bbox", opt_value
                      (fun ns => VStr (join "," (map (fun n => py_str (value_of_number n)) ns)))
                      (in_bbox i));
           ("datetime", opt_value VStr (in_datetime i));
           ("ids", opt_value (fun l => VStr (join "," l)) (in_ids i));
           ("page", VInt pg);
           ("limit", VInt lm);
           ("intersects", VNone);
           ("query", VNone) ].
Proof.
  intros G (Gb & Gd & Gi & Gc) P J R D C (Pa & Pd & La & Ld).
  rewrite (search_arguments_get g h G), Pa, La.
  rewrite (search_arguments_post p h rj d i pg lm P J R D C Pd Ld).
  do 2 eexists. split; [reflexivity|]. split; [reflexivity|].
  unfold search_kwargs. cbn [bbox datetime ids collections page limit intersects query].
  rewrite Gb, Gd, Gi, Gc. split; reflexivity.
Qed.

Lemma get_post_same_query_witness :
  exists qg qp,
    @search_arguments demo_builtins (demo_get demo_query_string) [VDict demo_body]
    = (Ok qg, [VDict demo_body])
    /\ @search_arguments demo_builtins (demo_post []) [VDict demo_body]
       = (Ok qp, [VDict demo_body])
    /\ search_kwargs ["admin"] qg = search_kwargs ["admin"] qp
    /\ search_kwargs ["admin"] qg
       = [ ("collections", VNone);
           ("roles", VList [VStr "admin"]);
           ("bbox", VStr "-60,-10,-50,0");
           ("datetime", VStr "2020-01-01/2020-12-31");
           ("ids", VStr "a,b");
           ("page", VInt 1);
           ("limit", VInt 2);
           ("intersects", VNone);
           ("query", VNone) ].
Proof.
  apply (@get_post_same_query demo_builtins ["admin"] demo_input
           (demo_get demo_query_string) (demo_post []) 0%nat demo_body [VDict demo_body] 1 2);
    try reflexivity.
  - repeat split.
  - repeat split.
  - repeat split.
Defined.

(** ** Pagination links *)

Lemma nth_dict_lt (l : loc) (h : heap) d : nth l h VNone = VDict d -> (l < List.length h)%nat.
Proof.
  intros E. destruct (Nat.lt_ge_cases l (List.length h)) as [L|G]; [exact L|].
  rewrite (nth_overflow h VNone G) in E. discriminate E.
Qed.

Lemma nth_dict_app (l : loc) (h h2 : heap) d :
  nth l h VNone = VDict d -> nth l (h ++ h2)%list VNone = VDict d.
Proof. intros E. rewrite app_nth1; [exact E|]. eapply nth_dict_lt, E. Qed.

Lemma update_nth_last {A} (h : list A) (x v : A) :
  update_nth (List.length h) v (h ++ [x])%list = (h ++ [v])%list.
Proof. induction h as [|a t IH]; cbn; [reflexivity|]. now rewrite IH. Qed.

Lemma string_app_assoc (a b c : string) : ((a ++ b) ++ c = a ++ (b ++ c))%string.
Proof. induction a as [|x a IH]; cbn; [reflexivity|]. now rewrite IH. Qed.

Lemma dict_set_nonempty {A} (d : list (string * A)) k v : dict_set d k v <> [].
Proof. destruct d as [|[k' v'] t]; cbn; [discriminate|]. destruct (k' =? k)%string; discriminate. Qed.

Lemma dict_set_twice {A} (d : list (string * A)) k v w :
  dict_set (dict_set d k v) k w = dict_set d k w.
Proof.
  induction d as [|[k' v'] t IH]; cbn.
  - now rewrite String.eqb_refl.
  - destruct (k' =? k)%string eqn:E; cbn; rewrite E; [reflexivity|]. now rewrite IH.
Qed.

Lemma dict_set_in {A} (d : list (string * A)) k v : In (k, v) (dict_set d k v).
Proof.
  induction d as [|[k' v'] t IH]; cbn; [now left|].
  destruct (k' =? k)%string eqn:E.
  - apply String.eqb_eq in E. subst. now left.
  - now right.
Qed.

Section Links.
Context `{Builtins} `{Deployment}.

Lemma search_page_link_get req rj a r num h :
  method req = "GET" ->
  search_page_link req rj a r num h
  = (Ok (plain_link (BASE_URL ++ "/search" ++ query_suffix (args_set a "page" (VInt num))) r,
         args_set a "page" (VInt num)), h).
Proof. intros G. unfold search_page_link. rewrite G. reflexivity. Qed.

Lemma search_page_link_post req rj d a r num h :
  method req = "POST" ->
  nth rj h VNone = VDict d ->
  search_page_link req (Some rj) a r num h
  = (Ok (post_link (plain_link (BASE_URL ++ "/search" ++ query_suffix a) r) (List.length h), a),
     (h ++ [VDict (dict_set d "page" (VInt num))])%list).
Proof.
  intros P D. unfold search_page_link. rewrite P.
  change (("POST" =? "GET")%string) with false. change (("POST" =? "POST")%string) with true.
  cbv iota.
  unfold bind, deepcopy, obj_setitem, bind, load, alloc, store, ret.
  rewrite D, nth_middle, update_nth_last. reflexivity.
Qed.

Lemma search_page_link_other req rj a r num h :
  (method req =? "GET")%string = false ->
  (method req =? "POST")%string = false ->
  search_page_link req rj a r num h
  = (Ok (plain_link (BASE_URL ++ "/search" ++ query_suffix a) r, a), h).
Proof. intros G P. unfold search_page_link. rewrite G, P. reflexivity. Qed.

Lemma search_links_get req rj items' h :
  method req = "GET" ->
  search_links req rj items' h = (Ok (get_links (BASE_URL ++ "/search") (args req) items'), h).
Proof.
  intros G. unfold search_links, get_links.
  destruct (has_next items'), (has_prev items');
    unfold bind, ret; rewrite ?(search_page_link_get _ _ _ _ _ _ G); cbn [fst snd];
    rewrite ?(search_page_link_get _ _ _ _ _ _ G); cbn [fst snd app];
    unfold args_set; rewrite ?dict_set_twice, ?string_app_assoc; reflexivity.
Qed.

Lemma search_links_post req rj d items' h :
  method req = "POST" ->
  nth rj h VNone = VDict d ->
  search_links req (Some rj) items' h
  = (Ok (post_links (args req) items' (List.length h)), (h ++ post_copies d items')%list).
Proof.
  intros P D. unfold search_links, post_links, post_copies.
  destruct (has_next items'), (has_prev items'); unfold bind, ret.
  - rewrite (search_page_link_post _ _ _ _ _ _ _ P D). cbn [fst snd].
    rewrite (search_page_link_post _ _ d _ _ _ _ P (nth_dict_app _ _ _ _ D)).
    cbn [fst snd app]. rewrite <- app_assoc, length_app, Nat.add_1_r. reflexivity.
  - rewrite (search_page_link_post _ _ _ _ _ _ _ P D). cbn [fst snd app].
    reflexivity.
  - rewrite (search_page_link_post _ _ _ _ _ _ _ P D). cbn [fst snd app].
    reflexivity.
  - cbn [fst snd app]. now rewrite app_nil_r.
Qed.

Lemma search_links_other req rj items' h :
  (method req =? "GET")%string = false ->
  (method req =? "POST")%string = false ->
  search_links req rj items' h = (Ok (other_links (args req) items'), h).
Proof.
  intros G P. unfold search_links, other_links.
  destruct (has_next items'), (has_prev items');
    unfold bind, ret; rewrite ?(search_page_link_other _ _ _ _ _ _ G P); cbn [fst snd];
    rewrite ?(search_page_link_other _ _ _ _ _ _ G P); reflexivity.
Qed.

Lemma items_links_eq collection_id req items' :
  items_links collection_id req items'
  = get_links (BASE_URL ++ "/collections/" ++ collection_id ++ "/items") (args req) items'.
Proof.
  unfold items_links, get_links.
  destruct (has_next items'), (has_prev items'); cbn [fst snd app];
    unfold args_set; rewrite ?dict_set_twice, ?string_app_assoc; reflexivity.
Qed.

Lemma count_get_links base a items' r :
  count_rel r (get_links base a items')
  = ((if has_next items' && ("next" =? r)%string then 1 else 0)
     + (if has_prev items' && ("prev" =? r)%string then 1 else 0))%nat.
Proof.
  unfold count_rel, get_links.
  destruct (has_next items'), (has_prev items');
    cbn [app filter rel plain_link post_link andb];
    destruct ("next" =? r)%string; destruct ("prev" =? r)%string; reflexivity.
Qed.

Lemma count_post_links a items' n r :
  count_rel r (post_links a items' n)
  = ((if has_next items' && ("next" =? r)%string then 1 else 0)
     + (if has_prev items' && ("prev" =? r)%string then 1 else 0))%nat.
Proof.
  unfold count_rel, post_links.
  destruct (has_next items'), (has_prev items');
    cbn [app filter rel plain_link post_link andb];
    destruct ("next" =? r)%string; destruct ("prev" =? r)%string; reflexivity.
Qed.

Lemma count_other_links a items' r :
  count_rel r (other_links a items')
  = ((if has_next items' && ("next" =? r)%string then 1 else 0)
     + (if has_prev items' && ("prev" =? r)%string then 1 else 0))%nat.
Proof.
  unfold count_rel, other_links.
  destruct (has_next items'), (has_prev items');
    cbn [app filter rel plain_link post_link andb];
    destruct ("next" =? r)%string; destruct ("prev" =? r)%string; reflexivity.
Qed.

End Links.

Lemma has_rel_count r ls : has_rel r ls <-> (0 < count_rel r ls)%nat.
Proof.
  unfold has_rel, count_rel. induction ls as [|l t IH]; cbn.
  - split; [intros (l & [] & _)|lia].
  - destruct (rel l =? r)%string eqn:E; cbn.
    + split; [lia|]. intros _. exists l. split; [now left|now apply String.eqb_eq].
    + rewrite <- IH. split.
      * intros (l' & [->|I] & R); [|now exists l'].
        apply String.eqb_neq in E. contradiction.
      * intros (l' & I & R). exists l'. split; [now right|exact R].
Qed.

Lemma flag_count r ls (b : bool) :
  count_rel r ls = (if b then 1 else 0)%nat ->
  (has_rel r ls <-> b = true) /\ (count_rel r ls <= 1)%nat.
Proof.
  intros C. rewrite has_rel_count, C.
  destruct b; (split; [split; intros X; try reflexivity; try lia; try discriminate X|lia]).
Qed.

Section Assembly.
Context `{Builtins} `{Deployment}.

Lemma obj_get_not_dict rj key default h :
  (forall d, nth rj h VNone <> VDict d) ->
  obj_get rj key default h = (Raise AttributeError, h).
Proof.
  intros N. unfold obj_get, bind, load.
  destruct (nth rj h VNone) eqn:E; try reflexivity. now destruct (N d).
Qed.

Ltac step_reader_in E0 R :=
  let a := fresh "a" in let e := fresh "e" in
  let E := fresh "E" in let B := fresh "B" in
  unfold bind at 1 in E0;
  match type of E0 with
  | context [?c ?h] =>
      match type of R with
      | reader c =>
          destruct (R h) as [[a E]|[e [E B]]]; rewrite E in E0; [|discriminate E0]
      end
  end.

(** When the arguments of a search are accepted the heap is as it was,
    and for a POST request the body is an object on it. *)
Lemma search_arguments_ok req h a h' :
  search_arguments req h = (Ok a, h') ->
  h' = h
  /\ ((method req =? "POST")%string = true ->
      exists rj d,
        get_json req = Ok rj /\ request_json a = Some rj /\ nth rj h VNone = VDict d).
Proof.
  intros E. unfold search_arguments in E.
  destruct (method req =? "POST")%string eqn:P.
  - destruct (is_json req); [|discriminate E].
    destruct (get_json req) as [rj|e] eqn:G; [|discriminate E].
    unfold bind at 1 in E. unfold lift at 1 in E.
    unfold bind at 1 in E.
    destruct (nth rj h VNone) eqn:D;
      try (rewrite obj_get_not_dict in E by (rewrite D; discriminate); discriminate E).
    rewrite (obj_get_dict rj d "bbox" VNone h D) in E.
    step_reader_in E (reader_optional join_str (dict_get d "bbox" VNone) reader_join_str).
    unfold bind at 1 in E. rewrite (obj_get_dict rj d "datetime" VNone h D) in E.
    unfold bind at 1 in E. rewrite (obj_get_dict rj d "ids" VNone h D) in E.
    step_reader_in E (reader_optional join_plain (dict_get d "ids" VNone) reader_join_plain).
    unfold bind at 1 in E. rewrite (obj_get_dict rj d "intersects" VNone h D) in E.
    unfold bind at 1 in E. rewrite (obj_get_dict rj d "query" VNone h D) in E.
    unfold bind at 1 in E. rewrite (obj_get_dict rj d "collections" VNone h D) in E.
    step_reader_in E (reader_optional join_plain (dict_get d "collections" VNone) reader_join_plain).
    unfold bind at 1 in E. rewrite (obj_get_dict rj d "page" (VInt 1) h D) in E.
    unfold bind at 1 in E. unfold lift at 1 in E.
    destruct (py_int (dict_get d "page" (VInt 1))); [|discriminate E].
    unfold bind at 1 in E. rewrite (obj_get_dict rj d "limit" (VInt 10) h D) in E.
    unfold bind at 1 in E. unfold lift at 1 in E.
    destruct (py_int (dict_get d "limit" (VInt 10))); [|discriminate E].
    unfold ret in E. inversion E; subst. split; [reflexivity|].
    intros _. exists rj, d. split; [reflexivity|]. split; [reflexivity|exact D].
  - split; [|discriminate].
    destruct (method req =? "GET")%string.
    + unfold bind, lift, ret in E.
      destruct (py_int (args_get (args req) "page" (VInt 1))); [|discriminate E].
      destruct (py_int (args_get (args req) "limit" (VInt 10))); [|discriminate E].
      now inversion E.
    + unfold ret in E. now inversion E.
Qed.

(** The links of an accepted search, and the heap they leave. *)
Lemma search_links_ok req h a items' :
  search_arguments req h = (Ok a, h) ->
  exists ls h2,
    search_links req (request_json a) items' h = (Ok ls, h2)
    /\ forall r,
         count_rel r ls
         = ((if has_next items' && ("next" =? r)%string then 1 else 0)
            + (if has_prev items' && ("prev" =? r)%string then 1 else 0))%nat.
Proof.
  intros E. destruct (search_arguments_ok _ _ _ _ E) as [_ Post].
  destruct (method req =? "POST")%string eqn:P.
  - destruct (Post eq_refl) as (rj & d & _ & R & D). rewrite R.
    apply String.eqb_eq in P.
    rewrite (search_links_post req rj d items' h P D).
    do 2 eexists. split; [reflexivity|]. intros r. apply count_post_links.
  - destruct (method req =? "GET")%string eqn:G.
    + apply String.eqb_eq in G. rewrite (search_links_get req _ items' h G).
      do 2 eexists. split; [reflexivity|]. intros r. apply count_get_links.
    + rewrite (search_links_other req _ items' h G P).
      do 2 eexists. split; [reflexivity|]. intros r. apply count_other_links.
Qed.

Lemma stac_search_links roles tok req h a items' :
  search_arguments req h = (Ok a, h) ->
  get_collection_items (search_kwargs roles a) = Ok items' ->
  exists g h2,
    stac_search roles tok req h = (Ok g, h2)
    /\ search_links req (request_json a) items' h = (Ok (links g), h2).
Proof.
  intros E S. destruct (search_links_ok req h a items' E) as (ls & h2 & L & _).
  unfold stac_search. unfold bind at 1. rewrite E.
  unfold bind at 1. unfold lift at 1. rewrite S.
  unfold bind at 1. rewrite L. unfold ret.
  do 2 eexists. split; reflexivity.
Qed.

Lemma collection_items_links collection_id roles tok req h items' :
  dict_mem (to_dict (args req)) "collection_id" = false ->
  dict_mem (to_dict (args req)) "roles" = false ->
  get_collection_items
    ([("collection_id", VStr collection_id); ("roles", VList (map VStr roles))]
     ++ to_dict (args req))%list = Ok items' ->
  exists g,
    collection_items collection_id roles tok req h = (Ok g, h)
    /\ links g = get_links (BASE_URL ++ "/collections/" ++ collection_id ++ "/items")
                   (args req) items'.
Proof.
  intros C R S. unfold collection_items. rewrite C, R. cbn [orb].
  unfold bind, lift. rewrite S. unfold ret.
  eexists. split; [reflexivity|]. cbn [links]. apply items_links_eq.
Qed.

End Assembly.

(** C6: once the catalog store has returned a page, the response is
    assembled and its links hold a link of rel next exactly when the page
    has a next one, a link of rel prev exactly when it has a previous
    one, and at most one of each; for the search endpoint and for the
    items of a collection alike. *)
Theorem pagination_links_follow_flags `{Builtins} `{Deployment}
    (collection_id : string) (roles : list string) (tok : string)
    (req : request) (h : heap) (items' : Pagination) :
  (forall a,
      search_arguments req h = (Ok a, h) ->
      get_collection_items (search_kwargs roles a) = Ok items' ->
      exists g h2,
        stac_search roles tok req h = (Ok g, h2)
        /\ (has_rel "next" (links g) <-> has_next items' = true)
        /\ (has_rel "prev" (links g) <-> has_prev items' = true)
        /\ (count_rel "next" (links g) <= 1)%nat
        /\ (count_rel "prev" (links g) <= 1)%nat)
  /\ (dict_mem (to_dict (args req)) "collection_id" = false ->
      dict_mem (to_dict (args req)) "roles" = false ->
      get_collection_items
        ([("collection_id", VStr collection_id); ("roles", VList (map VStr roles))]
         ++ to_dict (args req))%list = Ok items' ->
      exists g,
        collection_items collection_id roles tok req h = (Ok g, h)
        /\ (has_rel "next" (links g) <-> has_next items' = true)
        /\ (has_rel "prev" (links g) <-> has_prev items' = true)
        /\ (count_rel "next" (links g) <= 1)%nat
        /\ (count_rel "prev" (links g) <= 1)%nat).
Proof.
  split.
  - intros a E S.
    destruct (stac_search_links roles tok req h a items' E S) as (g & h2 & V & L).
    destruct (search_links_ok req h a items' E) as (ls & h3 & L' & C).
    rewrite L in L'. inversion L'; subst ls h3.
    exists g, h2. split; [exact V|].
    pose proof (C "next") as Cn. pose proof (C "prev") as Cp.
    change (("next" =? "next")%string) with true in Cn.
    change (("prev" =? "next")%string) with false in Cn.
    change (("next" =? "prev")%string) with false in Cp.
    change (("prev" =? "prev")%string) with true in Cp.
    rewrite andb_true_r, andb_false_r, Nat.add_0_r in Cn.
    rewrite andb_true_r, andb_false_r, Nat.add_0_l in Cp.
    destruct (flag_count _ _ _ Cn) as [? ?]. destruct (flag_count _ _ _ Cp) as [? ?].
    repeat split; tauto.
  - intros C R S.
    destruct (collection_items_links collection_id roles tok req h items' C R S) as (g & V & L).
    exists g. split; [exact V|]. rewrite L.
    pose proof (count_get_links (BASE_URL ++ "/collections/" ++ collection_id ++ "/items")
                  (args req) items' "next") as Cn.
    pose proof (count_get_links (BASE_URL ++ "/collections/" ++ collection_id ++ "/items")
                  (args req) items' "prev") as Cp.
    change (("next" =? "next")%string) with true in Cn.
    change (("prev" =? "next")%string) with false in Cn.
    change (("next" =? "prev")%string) with false in Cp.
    change (("prev" =? "prev")%string) with true in Cp.
    rewrite andb_true_r, andb_false_r, Nat.add_0_r in Cn.
    rewrite andb_true_r, andb_false_r, Nat.add_0_l in Cp.
    destruct (flag_count _ _ _ Cn) as [? ?]. destruct (flag_count _ _ _ Cp) as [? ?].
    repeat split; tauto.
Qed.

Lemma pagination_links_follow_flags_witness :
  (exists g h2,
      @stac_search demo_builtins demo_deployment [] "" (demo_get demo_query_string) []
      = (Ok g, h2)
      /\ (has_rel "next" (links g) <-> has_next (demo_page 1) = true)
      /\ (has_rel "prev" (links g) <-> has_prev (demo_page 1) = true)
      /\ (count_rel "next" (links g) <= 1)%nat
      /\ (count_rel "prev" (links g) <= 1)%nat)
  /\ (exists g,
         @collection_items demo_builtins demo_deployment "S2-L2A" [] ""
           (demo_get demo_query_string) []
         = (Ok g, [])
         /\ (has_rel "next" (links g) <-> has_next (demo_page 1) = true)
         /\ (has_rel "prev" (links g) <-> has_prev (demo_page 1) = true)
         /\ (count_rel "next" (links g) <= 1)%nat
         /\ (count_rel "prev" (links g) <= 1)%nat).
Proof.
  split.
  - eapply (proj1 (@pagination_links_follow_flags demo_builtins demo_deployment "S2-L2A" [] ""
                     (demo_get demo_query_string) [] (demo_page 1))).
    + vm_compute. reflexivity.
    + vm_compute. reflexivity.
  - apply (proj2 (@pagination_links_follow_flags demo_builtins demo_deployment "S2-L2A" [] ""
                    (demo_get demo_query_string) [] (demo_page 1))).
    + reflexivity.
    + reflexivity.
    + vm_compute. reflexivity.
Defined.

(** ** POST-shaped pagination links *)

(** C7, as stated, fails: a POST to [/search?access_token=abc] gets a
    next link whose href repeats that query string. *)
Lemma post_link_href_counterexample :
  ~ (forall (B : Builtins) (D : Deployment) roles tok req h g h2,
        method req = "POST" ->
        stac_search roles tok req h = (Ok g, h2) ->
        forall l, In l (links g) -> href l = BASE_URL ++ "/search").
Proof.
  intros C.
  assert (E : exists g h2,
             @stac_search demo_builtins demo_deployment [] ""
               (demo_post [("access_token", [VStr "abc"])]) [VDict [("limit", VInt 2)]]
             = (Ok g, h2)
             /\ exists l, In l (links g)
                          /\ href l = "http://localhost/search?access_token=abc").
  { do 2 eexists. split; [vm_compute; reflexivity|].
    eexists. split; [left; reflexivity|reflexivity]. }
  destruct E as (g & h2 & V & l & I & Hl).
  specialize (C demo_builtins demo_deployment [] ""
                (demo_post [("access_token", [VStr "abc"])]) [VDict [("limit", VInt 2)]]
                g h2 eq_refl V l I).
  rewrite Hl in C. vm_compute in C. discriminate C.
Qed.

(** C7, amended: for a POST search whose JSON body is an object, every
    next or prev link has as href the search endpoint path followed by
    the query string of the request as it came (so the bare path when
    the request URL had none; [page] is not written into it), method
    POST, merge true, and as body a new object that holds the original
    body with only [page] overwritten, by [next_num] for next and by
    [prev_num] for prev.  The original body object is left as it was, and
    so is everything else that was on the heap. *)
Theorem post_links_carry_body `{Builtins} `{Deployment}
    (roles : list string) (tok : string) (req : request) (h : heap)
    (a : search_args) (items' : Pagination) :
  method req = "POST" ->
  search_arguments req h = (Ok a, h) ->
  get_collection_items (search_kwargs roles a) = Ok items' ->
  exists rj d g h2,
    get_json req = Ok rj
    /\ nth rj h VNone = VDict d
    /\ stac_search roles tok req h = (Ok g, h2)
    /\ nth rj h2 VNone = VDict d
    /\ (exists copies, h2 = (h ++ copies)%list)
    /\ (forall l, In l (links g) ->
          href l = BASE_URL ++ "/search" ++ query_suffix (args req)
          /\ link_method l = Some "POST"
          /\ merge l = Some true
          /\ exists b,
               body l = Some b /\ b <> rj
               /\ (rel l = "next" ->
                   nth b h2 VNone = VDict (dict_set d "page" (VInt (next_num items'))))
               /\ (rel l = "prev" ->
                   nth b h2 VNone = VDict (dict_set d "page" (VInt (prev_num items')))))
    /\ (args req = [] -> forall l, In l (links g) -> href l = BASE_URL ++ "/search").
Proof.
  intros P E St.
  destruct (search_arguments_ok _ _ _ _ E) as [_ Post].
  assert (Pb : (method req =? "POST")%string = true) by now rewrite P.
  destruct (Post Pb) as (rj & d & G & R & D).
  destruct (stac_search_links roles tok req h a items' E St) as (g & h2 & V & L).
  rewrite R, (search_links_post req rj d items' h P D) in L.
  inversion L as [[Lg Lh]]. clear L. subst h2.
  pose proof (nth_dict_lt _ _ _ D) as Lt.
  exists rj, d, g, (h ++ post_copies d items')%list.
  split; [exact G|]. split; [exact D|]. split; [exact V|].
  split; [now apply nth_dict_app|]. split; [now eexists|].
  assert (F : forall l, In l (post_links (args req) items' (List.length h)) ->
              href l = BASE_URL ++ "/search" ++ query_suffix (args req)
              /\ link_method l = Some "POST"
              /\ merge l = Some true
              /\ exists b,
                   body l = Some b /\ b <> rj
                   /\ (rel l = "next" ->
                       nth b (h ++ post_copies d items')%list VNone
                       = VDict (dict_set d "page" (VInt (next_num items'))))
                   /\ (rel l = "prev" ->
                       nth b (h ++ post_copies d items')%list VNone
                       = VDict (dict_set d "page" (VInt (prev_num items'))))).
  { intros l I. unfold post_links, post_copies in *.
    destruct (has_next items'), (has_prev items'); cbn [app In] in I;
      repeat match goal with
             | X : _ \/ _ |- _ => destruct X as [X|X]
             | X : False |- _ => destruct X
             end; subst l; cbn [href link_method merge body rel post_link plain_link];
      (split; [reflexivity|]); (split; [reflexivity|]); (split; [reflexivity|]);
      eexists; (split; [reflexivity|]); (split; [lia|]);
      (split; intros Rl; try discriminate Rl); cbn [app].
    - apply nth_middle.
    - rewrite app_nth2 by lia.
      replace (S (List.length h) - List.length h)%nat with 1%nat by lia. reflexivity.
    - apply nth_middle.
    - apply nth_middle. }
  rewrite <- Lg. split; [exact F|].
  intros A l I. destruct (F l I) as [Hh _]. rewrite Hh, A. reflexivity.
Qed.

Lemma post_links_carry_body_witness :
  exists rj d g h2,
    get_json (demo_post []) = Ok rj
    /\ nth rj [VDict demo_body] VNone = VDict d
    /\ @stac_search demo_builtins demo_deployment [] "" (demo_post []) [VDict demo_body]
       = (Ok g, h2)
    /\ nth rj h2 VNone = VDict d
    /\ (exists copies, h2 = ([VDict demo_body] ++ copies)%list)
    /\ (forall l, In l (links g) ->
          href l = @BASE_URL demo_deployment ++ "/search" ++ @query_suffix demo_builtins []
          /\ link_method l = Some "POST"
          /\ merge l = Some true
          /\ exists b,
               body l = Some b /\ b <> rj
               /\ (rel l = "next" ->
                   nth b h2 VNone = VDict (dict_set d "page" (VInt 2)))
               /\ (rel l = "prev" ->
                   nth b h2 VNone = VDict (dict_set d "page" (VInt 0))))
    /\ (@nil (string * list value) = [] ->
        forall l, In l (links g) -> href l = @BASE_URL demo_deployment ++ "/search").
Proof.
  eapply (@post_links_carry_body demo_builtins demo_deployment [] "" (demo_post [])
            [VDict demo_body] _ (demo_page 1)).
  - reflexivity.
  - vm_compute. reflexivity.
  - vm_compute. reflexivity.
Defined.

(** ** GET-shaped pagination links *)

Lemma quote_digits d : url_quote_plus (NilEmpty.string_of_uint d) = NilEmpty.string_of_uint d.
Proof. induction d; cbn [NilEmpty.string_of_uint url_quote_plus]; rewrite ?IHd; reflexivity. Qed.

Lemma quote_decimal d : url_quote_plus (NilZero.string_of_uint d) = NilZero.string_of_uint d.
Proof. destruct d; first [reflexivity | apply quote_digits]. Qed.

Lemma quote_str_int z : url_quote_plus (str_int z) = str_int z.
Proof.
  unfold str_int, NilZero.string_of_int.
  destruct (Z.to_int z) as [d|d]; [apply quote_decimal|].
  cbn [url_quote_plus]. change (quote_char "-") with "-".
  cbn [append]. now rewrite quote_decimal.
Qed.

Lemma app_empty_r (a b : string) : (a ++ b = "" -> b = "")%string.
Proof. destruct a; cbn; [auto|discriminate]. Qed.

Lemma join_nonempty sep x l : In x l -> x <> "" -> join sep l <> "".
Proof.
  unfold join. induction l as [|y t IH]; cbn [In String.concat]; [intros []|].
  intros [->|I] N.
  - destruct t; [exact N|]. destruct x; [now destruct N|discriminate].
  - destruct t as [|y' t']; [destruct I|].
    intros E. apply app_empty_r, app_empty_r in E. exact (IH I N E).
Qed.

Section GetLinks.
Context `{Builtins} `{Deployment}.

(** Once [page] is written the parameter set is not empty, so the
    question mark is always there. *)
Lemma query_suffix_page a v :
  query_suffix (args_set a "page" v) = "?" ++ url_encode (args_set a "page" v).
Proof.
  unfold query_suffix, args_set, len.
  destruct (dict_set a "page" [v]) eqn:E; [now destruct (dict_set_nonempty a "page" [v])|].
  assert (L : (0 <? Z.of_nat (List.length (p :: l))) = true)
    by (apply Z.ltb_lt; cbn [List.length]; lia).
  now rewrite L.
Qed.

Lemma page_component a n :
  In ("page=" ++ str_int n) (url_encode_items (iter_multi_items (args_set a "page" (VInt n)))).
Proof.
  unfold url_encode_items. apply in_map_iff.
  exists ("page", VInt n). split.
  - cbn [fst snd py_str]. now rewrite quote_str_int.
  - apply filter_In. split; [|reflexivity].
    unfold iter_multi_items. apply in_flat_map.
    exists ("page", [VInt n]). split; [apply dict_set_in|now left].
Qed.

Lemma get_link_href base a items' l :
  In l (get_links base a items') ->
  exists num comps,
    (rel l = "next" /\ num = next_num items' /\ has_next items' = true
     \/ rel l = "prev" /\ num = prev_num items' /\ has_prev items' = true)
    /\ href l = base ++ "?" ++ join "&" comps
    /\ comps = url_encode_items (iter_multi_items (args_set a "page" (VInt num)))
    /\ In ("page=" ++ str_int num) comps
    /\ join "&" comps <> "".
Proof.
  unfold get_links. intros I. apply in_app_or in I.
  destruct I as [I|I]; [destruct (has_next items') eqn:F|destruct (has_prev items') eqn:F];
    try (now destruct I);
    (destruct I as [I|[]]; subst l;
     cbn [href rel plain_link]; rewrite query_suffix_page;
     do 2 eexists; (split; [|split; [reflexivity|split; [reflexivity|split]]]);
     [ | apply page_component
       | eapply join_nonempty; [apply page_component|discriminate] ]).
  - left. auto.
  - right. auto.
Qed.

End GetLinks.

(** C10: for a GET request to [/search] or to the items of a collection,
    every pagination link of the response has an href made of the
    endpoint path, a question mark and a query string that is not empty
    and has the component [page=N], with [N] the page's [next_num] for
    the next link and its [prev_num] for the prev link: [page] is written
    into the copied parameters before they are encoded, so the suffix
    computed for them always starts with the question mark. *)
Theorem get_links_carry_page `{Builtins} `{Deployment}
    (collection_id : string) (roles : list string) (tok : string)
    (req : request) (h : heap) (items' : Pagination) :
  (forall a v, query_suffix (args_set a "page" v) = "?" ++ url_encode (args_set a "page" v))
  /\ (forall a,
        method req = "GET" ->
        search_arguments req h = (Ok a, h) ->
        get_collection_items (search_kwargs roles a) = Ok items' ->
        exists g,
          stac_search roles tok req h = (Ok g, h)
          /\ forall l, In l (links g) ->
               exists num comps,
                 (rel l = "next" /\ num = next_num items' /\ has_next items' = true
                  \/ rel l = "prev" /\ num = prev_num items' /\ has_prev items' = true)
                 /\ href l = (BASE_URL ++ "/search") ++ "?" ++ join "&" comps
                 /\ comps = url_encode_items
                              (iter_multi_items (args_set (args req) "page" (VInt num)))
                 /\ In ("page=" ++ str_int num) comps
                 /\ join "&" comps <> "")
  /\ (dict_mem (to_dict (args req)) "collection_id" = false ->
      dict_mem (to_dict (args req)) "roles" = false ->
      get_collection_items
        ([("collection_id", VStr collection_id); ("roles", VList (map VStr roles))]
         ++ to_dict (args req))%list = Ok items' ->
      exists g,
        collection_items collection_id roles tok req h = (Ok g, h)
        /\ forall l, In l (links g) ->
             exists num comps,
               (rel l = "next" /\ num = next_num items' /\ has_next items' = true
                \/ rel l = "prev" /\ num = prev_num items' /\ has_prev items' = true)
               /\ href l = (BASE_URL ++ "/collections/" ++ collection_id ++ "/items")
                           ++ "?" ++ join "&" comps
               /\ comps = url_encode_items
                            (iter_multi_items (args_set (args req) "page" (VInt num)))
               /\ In ("page=" ++ str_int num) comps
               /\ join "&" comps <> "").
Proof.
  split; [exact query_suffix_page|]. split.
  - intros a G E St.
    destruct (stac_search_links roles tok req h a items' E St) as (g & h2 & V & L).
    rewrite (search_links_get req _ items' h G) in L. inversion L as [[Lg Lh]]. subst h2.
    exists g. split; [exact V|]. rewrite <- Lg. intros l I.
    exact (get_link_href _ _ _ l I).
  - intros C R St.
    destruct (collection_items_links collection_id roles tok req h items' C R St) as (g & V & L).
    exists g. split; [exact V|]. rewrite L. intros l I.
    exact (get_link_href _ _ _ l I).
Qed.

Lemma get_links_carry_page_witness :
  (exists g,
      @stac_search demo_builtins demo_deployment [] "" (demo_get demo_query_string) []
      = (Ok g, [])
      /\ forall l, In l (links g) ->
           exists num comps,
             (rel l = "next" /\ num = 2 /\ has_next (demo_page 1) = true
              \/ rel l = "prev" /\ num = 0 /\ has_prev (demo_page 1) = true)
             /\ href l = ("http://localhost" ++ "/search") ++ "?" ++ join "&" comps
             /\ comps = @url_encode_items demo_builtins
                          (iter_multi_items (args_set demo_query_string "page" (VInt num)))
             /\ In ("page=" ++ str_int num) comps
             /\ join "&" comps <> "")
  /\ (exists g,
         @collection_items demo_builtins demo_deployment "S2-L2A" [] ""
           (demo_get demo_query_string) []
         = (Ok g, [])
         /\ forall l, In l (links g) ->
              exists num comps,
                (rel l = "next" /\ num = 2 /\ has_next (demo_page 1) = true
                 \/ rel l = "prev" /\ num = 0 /\ has_prev (demo_page 1) = true)
                /\ href l = ("http://localhost" ++ "/collections/" ++ "S2-L2A" ++ "/items")
                            ++ "?" ++ join "&" comps
                /\ comps = @url_encode_items demo_builtins
                             (iter_multi_items (args_set demo_query_string "page" (VInt num)))
                /\ In ("page=" ++ str_int num) comps
                /\ join "&" comps <> "").
Proof.
  split.
  - eapply (proj1 (proj2 (@get_links_carry_page demo_builtins demo_deployment "S2-L2A" [] ""
                            (demo_get demo_query_string) [] (demo_page 1)))).
    + reflexivity.
    + vm_compute. reflexivity.
    + vm_compute. reflexivity.
  - apply (proj2 (proj2 (@get_links_carry_page demo_builtins demo_deployment "S2-L2A" [] ""
                           (demo_get demo_query_string) [] (demo_page 1)))).
    + reflexivity.
    + reflexivity.
    + vm_compute. reflexivity.
Defined.

(** ** Runs *)

(** [GET /search?bbox=-60,-10,-50,0&limit=2&page=1] on a store with five
    matching items: two returned, a next link for page 2, no prev link. *)
Example search_first_page :
  @stac_search demo_builtins demo_deployment [] ""
    (demo_get [("bbox", [VStr "-60,-10,-50,0"]); ("limit", [VStr "2"]); ("page", [VStr "1"])]) []
  = (Ok {| stac_version := None; stac_extensions := None;
           fc_type := "FeatureCollection";
           links := [plain_link "http://localhost/search?bbox=-60%2C-10%2C-50%2C0&limit=2&page=2"
                       "next"];
           context := [("matched", 5); ("returned", 2)];
           features := [VStr "item-a"; VStr "item-b"] |}, []).
Proof. vm_compute. reflexivity. Qed.

(** A POST for page 2: both links, each with its own copy of the body;
    the body that came with the request stays at location 0. *)
Example search_second_page_post :
  @stac_search demo_builtins demo_deployment [] "" (demo_post [])
    [VDict [("ids", VList [VStr "a"; VStr "b"]); ("page", VInt 2)]]
  = (Ok {| stac_version := None; stac_extensions := None;
           fc_type := "FeatureCollection";
           links := [post_link (plain_link "http://localhost/search" "next") 1%nat;
                     post_link (plain_link "http://localhost/search" "prev") 2%nat];
           context := [("matched", 5); ("returned", 2)];
           features := [VStr "item-a"; VStr "item-b"] |},
     [VDict [("ids", VList [VStr "a"; VStr "b"]); ("page", VInt 2)];
      VDict [("ids", VList [VStr "a"; VStr "b"]); ("page", VInt 3)];
      VDict [("ids", VList [VStr "a"; VStr "b"]); ("page", VInt 1)]]).
Proof. vm_compute. reflexivity. Qed.

(** A POST without a JSON content type is refused with 400. *)
Example search_post_not_json :
  @dispatch_request demo_builtins
    (@stac_search demo_builtins demo_deployment [] ""
       {| method := "POST"; args := []; req_headers := []; is_json := false;
          get_json := Raise (HTTPException 400 "Bad Request") |}) []
  = (Failure (http_error_body 400 "POST Request must be an application/json") 400, [], []).
Proof. vm_compute. reflexivity. Qed.

Example str_int_samples : (str_int 0, str_int (-12), str_int 502) = ("0", "-12", "502").
Proof. vm_compute. reflexivity. Qed.

Example url_quote_plus_sample : url_quote_plus "a b,c/d~e" = "a+b%2Cc%2Fd~e".
Proof. vm_compute. reflexivity. Qed.

Example lower_sample : lower "GZip, Deflate" = "gzip, deflate".
Proof. vm_compute. reflexivity. Qed.

Example split_sample : split_on "," "a,b," = ["a"; "b"; ""].
Proof. vm_compute. reflexivity. Qed.

Example assets_kwargs_sample :
  @get_assets_kwargs demo_builtins demo_deployment
    (demo_get [("access_token", [VStr "abc"])]) ""
  = "?access_token=abc".
Proof. vm_compute. reflexivity. Qed.

(** * Further properties of the routes *)

(** ** The filter: what it always and never does *)

(** X1: whatever the response, the filter keeps its status code and its
    passthrough flag, and appends one value to each of the three CORS
    headers; a response that already had one of them has it twice. *)
Theorem after_request_always_cors `{Builtins} (rh : headers) (resp : response) :
  status_code (after_request rh resp) = status_code resp
  /\ direct_passthrough (after_request rh resp) = direct_passthrough resp
  /\ headers_getlist "Access-Control-Allow-Origin" (resp_headers (after_request rh resp))
     = (headers_getlist "Access-Control-Allow-Origin" (resp_headers resp) ++ ["*"])%list
  /\ headers_getlist "Access-Control-Allow-Headers" (resp_headers (after_request rh resp))
     = (headers_getlist "Access-Control-Allow-Headers" (resp_headers resp)
        ++ ["Content-Type"])%list
  /\ headers_getlist "Access-Control-Allow-Methods" (resp_headers (after_request rh resp))
     = (headers_getlist "Access-Control-Allow-Methods" (resp_headers resp)
        ++ ["GET, POST"])%list.
Proof.
  rewrite after_request_cases.
  destruct (compressibleb rh resp); unfold compressed, with_headers;
    cbn [status_code direct_passthrough resp_headers];
    (split; [reflexivity|]); (split; [reflexivity|]);
    rewrite ?getlist_set_other by reflexivity;
    rewrite cors_app, !headers_getlist_app; repeat split.
Qed.

(** X2: a header that is none of Content-Encoding, Content-Length and the
    three CORS headers leaves the filter with the values it came with,
    in their order, whether the body was compressed or not. *)
Theorem after_request_other_headers `{Builtins} (rh : headers) (resp : response) (k : string) :
  same_key k "Content-Encoding" = false ->
  same_key k "Content-Length" = false ->
  same_key k "Access-Control-Allow-Origin" = false ->
  same_key k "Access-Control-Allow-Headers" = false ->
  same_key k "Access-Control-Allow-Methods" = false ->
  headers_getlist k (resp_headers (after_request rh resp))
  = headers_getlist k (resp_headers resp).
Proof.
  intros CE CL AO AH AM. rewrite after_request_cases.
  assert (G : headers_getlist k (cors (resp_headers resp))
              = headers_getlist k (resp_headers resp))
    by (apply getlist_cors; now rewrite same_key_sym).
  destruct (compressibleb rh resp); unfold compressed, with_headers; cbn [resp_headers].
  - now rewrite !getlist_set_other by assumption.
  - exact G.
Qed.

Lemma after_request_other_headers_witness :
  headers_getlist "content-type"
    (resp_headers (@after_request demo_builtins demo_accept (demo_response 500 false)))
  = ["application/json"].
Proof.
  apply (@after_request_other_headers demo_builtins demo_accept (demo_response 500 false)
           "content-type"); reflexivity.
Defined.

(** ** [get_assets_kwargs] *)

Lemma dict_set_inv {A} (d : list (string * A)) key x k v :
  In (k, v) (dict_set d key x) -> (k = key /\ v = x) \/ In (k, v) d.
Proof.
  induction d as [|[k' v'] t IH]; cbn.
  - intros [E|[]]. inversion E. now left.
  - destruct (k' =? key)%string eqn:Q; cbn.
    + intros [E|I]; [|now right; right]. inversion E; subst.
      apply String.eqb_eq in Q. subst. now left.
    + intros [E|I]; [now right; left|]. destruct (IH I) as [L|R]; [now left|now right; right].
Qed.

Lemma dict_get_set_same {A} (d : list (string * A)) k v default :
  dict_get (dict_set d k v) k default = v.
Proof.
  induction d as [|[k' v'] t IH]; cbn.
  - now rewrite String.eqb_refl.
  - destruct (k' =? k)%string eqn:Q; cbn; rewrite Q; [reflexivity|exact IH].
Qed.

Lemma dict_get_set_other {A} (d : list (string * A)) k v k' default :
  k' <> k -> dict_get (dict_set d k v) k' default = dict_get d k' default.
Proof.
  intros N. induction d as [|[k0 v0] t IH]; cbn.
  - destruct (k =? k')%string eqn:Q; [|reflexivity].
    apply String.eqb_eq in Q. now destruct N.
  - destruct (k0 =? k)%string eqn:Q; cbn.
    + apply String.eqb_eq in Q. subst k0.
      destruct (k =? k')%string eqn:Q'; [|reflexivity].
      apply String.eqb_eq in Q'. now destruct N.
    + destruct (k0 =? k')%string; [reflexivity|exact IH].
Qed.

Lemma component_nonempty (a b : string) : a ++ "=" ++ b <> "".
Proof. destruct a; discriminate. Qed.

Section AssetsKwargs.
Context `{Builtins} `{Deployment}.

Lemma picked_in req names d0 k v :
  In (k, v) (fold_left (pick req) names d0) ->
  In (k, v) d0 \/ (In k names /\ v = args_get (args req) k VNone /\ is_none v = false).
Proof.
  revert d0. induction names as [|n t IH]; cbn [fold_left]; intros d0 I; [now left|].
  destruct (IH _ I) as [I0|(I1 & E & N)].
  - unfold pick in I0. destruct (is_none (args_get (args req) n VNone)) eqn:Q; [now left|].
    destruct (dict_set_inv _ _ _ _ _ I0) as [[-> ->]|I1]; [|now left].
    right. split; [now left|]. split; [reflexivity|exact Q].
  - right. split; [now right|]. now split.
Qed.

Lemma picked_nil req names d0 :
  fold_left (pick req) names d0 = [] <->
  d0 = [] /\ forall k, In k names -> args_get (args req) k VNone = VNone.
Proof.
  revert d0. induction names as [|n t IH]; cbn [fold_left]; intros d0.
  - split; [intros ->; split; [reflexivity|intros k []]|now intros [-> _]].
  - rewrite IH. unfold pick. destruct (args_get (args req) n VNone) eqn:Q; cbn [is_none].
    + split.
      * intros [-> A]. split; [reflexivity|]. intros k [<-|I]; [exact Q|now apply A].
      * intros [-> A]. split; [reflexivity|]. intros k I. apply A. now right.
    + split; [intros [E _]; now destruct (dict_set_nonempty _ _ _ E)|].
      intros [_ A]. specialize (A n (or_introl eq_refl)). rewrite Q in A. discriminate A.
    + split; [intros [E _]; now destruct (dict_set_nonempty _ _ _ E)|].
      intros [_ A]. specialize (A n (or_introl eq_refl)). rewrite Q in A. discriminate A.
    + split; [intros [E _]; now destruct (dict_set_nonempty _ _ _ E)|].
      intros [_ A]. specialize (A n (or_introl eq_refl)). rewrite Q in A. discriminate A.
    + split; [intros [E _]; now destruct (dict_set_nonempty _ _ _ E)|].
      intros [_ A]. specialize (A n (or_introl eq_refl)). rewrite Q in A. discriminate A.
    + split; [intros [E _]; now destruct (dict_set_nonempty _ _ _ E)|].
      intros [_ A]. specialize (A n (or_introl eq_refl)). rewrite Q in A. discriminate A.
    + split; [intros [E _]; now destruct (dict_set_nonempty _ _ _ E)|].
      intros [_ A]. specialize (A n (or_introl eq_refl)). rewrite Q in A. discriminate A.
Qed.

Lemma encode_all_present kw :
  (forall k v, In (k, v) kw -> is_none v = false) ->
  url_encode_items kw
  = map (fun kv => url_quote_plus (fst kv) ++ "=" ++ url_quote_plus (py_str (snd kv))) kw.
Proof.
  intros P. unfold url_encode_items. f_equal.
  induction kw as [|[k v] t IH]; cbn; [reflexivity|].
  rewrite (P k v (or_introl eq_refl)). cbn. f_equal. apply IH.
  intros k' v' I. apply (P k' v'). now right.
Qed.

Lemma encode_nonempty kw :
  kw <> [] ->
  (forall k v, In (k, v) kw -> is_none v = false) ->
  url_encode_dict kw <> "".
Proof.
  intros N P. unfold url_encode_dict. rewrite (encode_all_present kw P).
  destruct kw as [|[k v] t]; [now destruct N|].
  eapply join_nonempty; [now left|apply component_nonempty].
Qed.

(** The dictionary [get_assets_kwargs] builds once the configuration is
    set, and the string it returns for it. *)
Lemma assets_kwargs_configured req tok conf :
  BDC_STAC_ASSETS_ARGS = Some conf ->
  conf <> "" ->
  let picked := fold_left (pick req) (split_on "," conf) [] in
  let kw := if String.eqb tok "" then picked else dict_set picked "access_token" (VStr tok) in
  (forall k v, In (k, v) kw -> is_none v = false)
  /\ get_assets_kwargs req tok
     = match kw with [] => "" | _ :: _ => "?" ++ url_encode_dict kw end.
Proof.
  intros C N picked kw.
  assert (P : forall k v, In (k, v) kw -> is_none v = false).
  { intros k v I. unfold kw in I. destruct (tok =? "")%string.
    - destruct (picked_in req _ _ _ _ I) as [[]|(_ & _ & Q)]. exact Q.
    - destruct (dict_set_inv _ _ _ _ _ I) as [[_ ->]|I']; [reflexivity|].
      destruct (picked_in req _ _ _ _ I') as [[]|(_ & _ & Q)]. exact Q. }
  split; [exact P|].
  unfold get_assets_kwargs. rewrite C.
  apply String.eqb_neq in N. rewrite N.
  fold (pick req). fold picked. fold kw.
  destruct kw as [|p t] eqn:K; [reflexivity|].
  assert (E : url_encode_dict (p :: t) <> "")
    by (apply encode_nonempty; [discriminate|now rewrite <- K in *]).
  apply String.eqb_neq in E. now rewrite E.
Qed.

End AssetsKwargs.

(** X3: the suffix [get_assets_kwargs] returns is either empty or a
    question mark followed by [key=value] components joined by [&], and
    every component comes from a query parameter whose name is on the
    configured list and that the request supplied, or is the access
    token; nothing else of the request goes into it. *)
Theorem assets_kwargs_allow_list `{Builtins} `{Deployment} (req : request) (tok : string) :
  exists kw,
    get_assets_kwargs req tok
    = match kw with
      | [] => ""
      | _ :: _ =>
          "?" ++ join "&"
                   (map (fun kv => url_quote_plus (fst kv) ++ "="
                                   ++ url_quote_plus (py_str (snd kv))) kw)
      end
    /\ forall k v, In (k, v) kw ->
         (k = "access_token" /\ v = VStr tok /\ tok <> "")
         \/ (exists conf,
                BDC_STAC_ASSETS_ARGS = Some conf
                /\ In k (split_on "," conf)
                /\ v = args_get (args req) k VNone
                /\ v <> VNone).
Proof.
  destruct BDC_STAC_ASSETS_ARGS as [conf|] eqn:C.
  - destruct (String.eqb conf "") eqn:Q.
    + exists []. split; [|intros k v []].
      unfold get_assets_kwargs. now rewrite C, Q.
    + apply String.eqb_neq in Q.
      destruct (assets_kwargs_configured req tok conf C Q) as [P E].
      exists (if String.eqb tok "" then fold_left (pick req) (split_on "," conf) []
              else dict_set (fold_left (pick req) (split_on "," conf) []) "access_token"
                     (VStr tok)).
      split.
      * rewrite E. destruct (if (tok =? "")%string then _ else _) eqn:K; [reflexivity|].
        unfold url_encode_dict. now rewrite (encode_all_present _ P).
      * intros k v I.
        assert (R : In (k, v) (fold_left (pick req) (split_on "," conf) []) ->
                    exists conf0, Some conf = Some conf0 /\ In k (split_on "," conf0)
                                  /\ v = args_get (args req) k VNone /\ v <> VNone).
        { intros I'. destruct (picked_in req _ _ _ _ I') as [[]|(I1 & E1 & N1)].
          exists conf. repeat split; try assumption. intros ->. discriminate N1. }
        destruct (tok =? "")%string eqn:T; [right; now apply R|].
        destruct (dict_set_inv _ _ _ _ _ I) as [[-> ->]|I']; [|right; now apply R].
        left. repeat split. now apply String.eqb_neq.
  - exists []. split; [|intros k v []].
    unfold get_assets_kwargs. now rewrite C.
Qed.

(** X4: with a configured list, the suffix carries the caller's access
    token whenever there is one, and the token wins over a query
    parameter named [access_token]: the dictionary that is encoded maps
    [access_token] to the token. *)
Theorem assets_kwargs_token `{Builtins} `{Deployment} (req : request) (tok conf : string) :
  BDC_STAC_ASSETS_ARGS = Some conf ->
  conf <> "" ->
  tok <> "" ->
  exists kw,
    get_assets_kwargs req tok = "?" ++ url_encode_dict kw
    /\ dict_get kw "access_token" VNone = VStr tok
    /\ In ("access_token=" ++ url_quote_plus tok) (url_encode_items kw).
Proof.
  intros C N T.
  destruct (assets_kwargs_configured req tok conf C N) as [P E].
  apply String.eqb_neq in T. rewrite T in P, E.
  exists (dict_set (fold_left (pick req) (split_on "," conf) []) "access_token" (VStr tok)).
  split; [|split].
  - rewrite E. destruct (dict_set _ _ _) eqn:K; [|reflexivity].
    now destruct (dict_set_nonempty _ _ _ K).
  - apply dict_get_set_same.
  - rewrite (encode_all_present _ P). apply in_map_iff.
    exists ("access_token", VStr tok). split; [reflexivity|apply dict_set_in].
Qed.

Lemma assets_kwargs_token_witness :
  exists kw,
    @get_assets_kwargs demo_builtins demo_deployment
      (demo_get [("access_token", [VStr "forged"])]) "s3cr3t"
    = "?" ++ @url_encode_dict demo_builtins kw
    /\ dict_get kw "access_token" VNone = VStr "s3cr3t"
    /\ In ("access_token=" ++ url_quote_plus "s3cr3t") (@url_encode_items demo_builtins kw).
Proof.
  apply (@assets_kwargs_token demo_builtins demo_deployment
           (demo_get [("access_token", [VStr "forged"])]) "s3cr3t" "access_token");
    [reflexivity|discriminate|discriminate].
Defined.

(** X5: the suffix is empty exactly when no list of names is configured
    (then even an access token is left out), or when there is no access
    token and the request has none of the configured parameters. *)
Theorem assets_kwargs_empty_iff `{Builtins} `{Deployment} (req : request) (tok : string) :
  get_assets_kwargs req tok = ""
  <-> (BDC_STAC_ASSETS_ARGS = None
       \/ BDC_STAC_ASSETS_ARGS = Some ""
       \/ exists conf,
            BDC_STAC_ASSETS_ARGS = Some conf
            /\ tok = ""
            /\ forall k, In k (split_on "," conf) -> args_get (args req) k VNone = VNone).
Proof.
  destruct BDC_STAC_ASSETS_ARGS as [conf|] eqn:C.
  - destruct (String.eqb conf "") eqn:Q.
    + apply String.eqb_eq in Q. subst conf. split; [now right; left|].
      intros _. unfold get_assets_kwargs. now rewrite C.
    + apply String.eqb_neq in Q.
      destruct (assets_kwargs_configured req tok conf C Q) as [_ E]. rewrite E.
      destruct (tok =? "")%string eqn:T.
      * apply String.eqb_eq in T.
        destruct (fold_left (pick req) (split_on "," conf) []) eqn:K.
        -- split; [|reflexivity]. intros _. right. right. exists conf.
           split; [reflexivity|]. split; [exact T|]. now apply (picked_nil req _ []).
        -- split; [discriminate|].
           intros [D|[D|(conf' & D & _ & A)]]; try discriminate D.
           ++ inversion D. now destruct Q.
           ++ inversion D; subst conf'.
              assert (Z : fold_left (pick req) (split_on "," conf) [] = [])
                by now apply picked_nil.
              rewrite Z in K. discriminate K.
      * destruct (dict_set _ _ _) eqn:K; [now destruct (dict_set_nonempty _ _ _ K)|].
        split; [discriminate|].
        intros [D|[D|(conf' & D & T' & _)]]; try discriminate D.
        -- inversion D. now destruct Q.
        -- subst tok. discriminate T.
  - split; [now left|]. intros _. unfold get_assets_kwargs. now rewrite C.
Qed.

Lemma assets_kwargs_empty_iff_witness :
  @get_assets_kwargs demo_builtins demo_deployment (demo_get [("bbox", [VStr "1,2,3,4"])]) ""
  = "".
Proof.
  apply (proj2 (@assets_kwargs_empty_iff demo_builtins demo_deployment
                  (demo_get [("bbox", [VStr "1,2,3,4"])]) "")).
  right. right. exists "access_token". split; [reflexivity|]. split; [reflexivity|].
  intros k [<-|[]]. reflexivity.
Defined.

(** ** The search arguments: errors and edges *)

Section BodyFieldsFacts.
Context `{Builtins} `{Deployment}.

Lemma join_str_eq v h : join_str v h = (join_str_of v, h).
Proof. unfold join_str, join_str_of, bind, lift, ret. now destruct (py_iter v). Qed.

Lemma join_plain_eq v h : join_plain v h = (join_plain_of v, h).
Proof.
  unfold join_plain, join_plain_of, bind, lift, ret.
  destruct (py_iter v); [|reflexivity]. now destruct (py_join "," a).
Qed.

Lemma optional_step (f : value -> M value) (g : value -> result value) v h :
  (forall x h', f x h' = (g x, h')) ->
  (if is_none v then ret v else f v) h = ((if is_none v then Ok v else g v), h).
Proof. intros E. destruct (is_none v); [reflexivity|apply E]. Qed.

(** A POST search reads its arguments off the body as [post_fields]
    says, and leaves the heap alone. *)
Lemma search_arguments_post_fields req h rj d :
  method req = "POST" ->
  is_json req = true ->
  get_json req = Ok rj ->
  nth rj h VNone = VDict d ->
  search_arguments req h = (post_fields rj d, h).
Proof.
  intros P J G D. unfold search_arguments, post_fields. rewrite P, J, G.
  change (("POST" =? "POST")%string) with true. cbv iota.
  unfold bind at 1. unfold lift at 1.
  unfold bind at 1. rewrite (obj_get_dict rj d "bbox" VNone h D).
  unfold bind at 1. rewrite (optional_step join_str join_str_of _ h join_str_eq).
  destruct (if is_none (dict_get d "bbox" VNone) then _ else _); [|reflexivity].
  unfold bind at 1. rewrite (obj_get_dict rj d "datetime" VNone h D).
  unfold bind at 1. rewrite (obj_get_dict rj d "ids" VNone h D).
  unfold bind at 1. rewrite (optional_step join_plain join_plain_of _ h join_plain_eq).
  destruct (if is_none (dict_get d "ids" VNone) then _ else _); [|reflexivity].
  unfold bind at 1. rewrite (obj_get_dict rj d "intersects" VNone h D).
  unfold bind at 1. rewrite (obj_get_dict rj d "query" VNone h D).
  unfold bind at 1. rewrite (obj_get_dict rj d "collections" VNone h D).
  unfold bind at 1. rewrite (optional_step join_plain join_plain_of _ h join_plain_eq).
  destruct (if is_none (dict_get d "collections" VNone) then _ else _); [|reflexivity].
  unfold bind at 1. rewrite (obj_get_dict rj d "page" (VInt 1) h D).
  unfold bind at 1. unfold lift at 1.
  destruct (py_int (dict_get d "page" (VInt 1))); [|reflexivity].
  unfold bind at 1. rewrite (obj_get_dict rj d "limit" (VInt 10) h D).
  unfold bind at 1. unfold lift at 1.
  destruct (py_int (dict_get d "limit" (VInt 10))); reflexivity.
Qed.

Lemma join_str_of_builtin v e : join_str_of v = Raise e -> builtin_exn e = true.
Proof.
  unfold join_str_of. destruct (py_iter v) eqn:E; [discriminate|].
  intros X. inversion X; subst. eapply py_iter_builtin, E.
Qed.

Lemma join_plain_of_builtin v e : join_plain_of v = Raise e -> builtin_exn e = true.
Proof.
  unfold join_plain_of, py_join. destruct (py_iter v) eqn:E.
  - destruct (strings_of a) eqn:S; [discriminate|].
    intros X. inversion X; subst. eapply strings_of_builtin, S.
  - intros X. inversion X; subst. eapply py_iter_builtin, E.
Qed.

(** Whatever [post_fields] raises is one of Python's own exceptions. *)
Lemma post_fields_builtin rj d e : post_fields rj d = Raise e -> builtin_exn e = true.
Proof.
  unfold post_fields.
  destruct (is_none (dict_get d "bbox" VNone)).
  2: destruct (join_str_of (dict_get d "bbox" VNone)) eqn:B;
       [|intros X; inversion X; subst; eapply join_str_of_builtin, B].
  all: destruct (is_none (dict_get d "ids" VNone)).
  all: try (destruct (join_plain_of (dict_get d "ids" VNone)) eqn:I;
            [|intros X; inversion X; subst; eapply join_plain_of_builtin, I]).
  all: destruct (is_none (dict_get d "collections" VNone)).
  all: try (destruct (join_plain_of (dict_get d "collections" VNone)) eqn:C;
            [|intros X; inversion X; subst; eapply join_plain_of_builtin, C]).
  all: destruct (py_int (dict_get d "page" (VInt 1))) eqn:Pg;
         [|intros X; inversion X; subst; eapply py_int_builtin, Pg].
  all: destruct (py_int (dict_get d "limit" (VInt 10))) eqn:Lm;
         [discriminate|intros X; inversion X; subst; eapply py_int_builtin, Lm].
Qed.

Lemma strings_of_not_str xs x :
  In x xs -> (forall s, x <> VStr s) -> strings_of xs = Raise TypeError.
Proof.
  intros I N. induction xs as [|y t IH]; [destruct I|].
  destruct I as [->|I].
  - destruct x; try reflexivity. now destruct (N s).
  - cbn. destruct y; try reflexivity. now rewrite (IH I).
Qed.

Lemma join_plain_of_not_str l x :
  In x l -> (forall s, x <> VStr s) -> join_plain_of (VList l) = Raise TypeError.
Proof.
  intros I N. unfold join_plain_of, py_join. cbn [py_iter].
  now rewrite (strings_of_not_str l x I N).
Qed.

End BodyFieldsFacts.

(** X6: a POST search that is not declared as JSON is refused with
    status 400 and the description of the [abort] call, before anything
    is read from the body or asked of the catalog store. *)
Theorem post_without_json_is_refused `{Builtins} `{Deployment}
    (roles : list string) (tok : string) (req : request) (h : heap) :
  method req = "POST" ->
  is_json req = false ->
  dispatch_request (stac_search roles tok req) h
  = (Failure (http_error_body 400 "POST Request must be an application/json") 400, h, []).
Proof.
  intros P J.
  assert (V : stac_search roles tok req h
              = (Raise (HTTPException 400 "POST Request must be an application/json"), h)).
  { apply stac_search_raise. unfold search_arguments. rewrite P, J. reflexivity. }
  unfold dispatch_request. rewrite V. reflexivity.
Qed.

Lemma post_without_json_is_refused_witness :
  @dispatch_request demo_builtins
    (@stac_search demo_builtins demo_deployment [] ""
       {| method := "POST"; args := []; req_headers := []; is_json := false;
          get_json := Ok 0%nat |}) [VDict demo_body]
  = (Failure (http_error_body 400 "POST Request must be an application/json") 400,
     [VDict demo_body], []).
Proof.
  apply (@post_without_json_is_refused demo_builtins demo_deployment [] ""); reflexivity.
Defined.

(** X7: a POST search whose JSON body is not an object (a list, a
    string, a number, null) fails on the first [get]: the caller gets
    the generic 500 reply and an [AttributeError] is logged. *)
Theorem post_body_not_object `{Builtins} `{Deployment}
    (roles : list string) (tok : string) (req : request) (h : heap) (rj : loc) :
  method req = "POST" ->
  is_json req = true ->
  get_json req = Ok rj ->
  (forall d, nth rj h VNone <> VDict d) ->
  dispatch_request (stac_search roles tok req) h
  = (Failure internal_error_body 500, h, [AttributeError]).
Proof.
  intros P J G N. apply dispatch_builtin; [|reflexivity].
  apply stac_search_raise. unfold search_arguments. rewrite P, J, G.
  change (("POST" =? "POST")%string) with true. cbv iota.
  unfold bind at 1. unfold lift at 1. unfold bind at 1.
  now rewrite (obj_get_not_dict rj "bbox" VNone h N).
Qed.

Lemma post_body_not_object_witness :
  @dispatch_request demo_builtins
    (@stac_search demo_builtins demo_deployment [] "" (demo_post []))
    [VList [VStr "a"; VStr "b"]]
  = (Failure (@internal_error_body demo_builtins) 500, [VList [VStr "a"; VStr "b"]],
     [AttributeError]).
Proof.
  apply (@post_body_not_object demo_builtins demo_deployment [] "" (demo_post [])
           [VList [VStr "a"; VStr "b"]] 0%nat); try reflexivity.
  intros d. discriminate.
Defined.

(** X8: in a POST body, [ids] and [collections] have to be lists of
    strings: one element that is not a string (a number, null, a nested
    list) makes the join fail, and the caller gets the generic 500
    reply. *)
Theorem post_ids_not_strings `{Builtins} `{Deployment}
    (roles : list string) (tok : string) (req : request) (h : heap)
    (rj : loc) (d : list (string * value)) (l : list value) (x : value) :
  method req = "POST" ->
  is_json req = true ->
  get_json req = Ok rj ->
  nth rj h VNone = VDict d ->
  dict_get d "ids" VNone = VList l \/ dict_get d "collections" VNone = VList l ->
  In x l ->
  (forall s, x <> VStr s) ->
  exists e,
    builtin_exn e = true
    /\ dispatch_request (stac_search roles tok req) h
       = (Failure internal_error_body 500, h, [e]).
Proof.
  intros P J G D K I N.
  assert (R : exists e, post_fields rj d = Raise e).
  { unfold post_fields.
    destruct (if is_none (dict_get d "bbox" VNone) then _ else _); [|eauto].
    destruct K as [K|K].
    - rewrite K. cbn [is_none]. rewrite (join_plain_of_not_str l x I N). eauto.
    - destruct (if is_none (dict_get d "ids" VNone) then _ else _); [|eauto].
      rewrite K. cbn [is_none]. rewrite (join_plain_of_not_str l x I N). eauto. }
  destruct R as [e R]. exists e.
  pose proof (post_fields_builtin rj d e R) as B. split; [exact B|].
  apply dispatch_builtin; [|exact B]. apply stac_search_raise.
  now rewrite (search_arguments_post_fields req h rj d P J G D), R.
Qed.

Lemma post_ids_not_strings_witness :
  exists e,
    builtin_exn e = true
    /\ @dispatch_request demo_builtins
         (@stac_search demo_builtins demo_deployment [] "" (demo_post []))
         [VDict [("ids", VList [VStr "a"; VInt 7])]]
       = (Failure (@internal_error_body demo_builtins) 500,
          [VDict [("ids", VList [VStr "a"; VInt 7])]], [e]).
Proof.
  apply (@post_ids_not_strings demo_builtins demo_deployment [] "" (demo_post [])
           [VDict [("ids", VList [VStr "a"; VInt 7])]] 0%nat
           [("ids", VList [VStr "a"; VInt 7])] [VStr "a"; VInt 7] (VInt 7));
    try reflexivity.
  - left. reflexivity.
  - right. left. reflexivity.
  - intros s. discriminate.
Defined.

Lemma args_get_absent (a : MultiDict) key default :
  dict_mem a key = false -> args_get a key default = default.
Proof.
  intros M. unfold args_get.
  replace (dict_get a key []) with (@nil value); [reflexivity|].
  induction a as [|[k v] t IH]; cbn in *; [reflexivity|].
  destruct (k =? key)%string; [discriminate M|]. now apply IH.
Qed.

(** X9: a GET search never passes [intersects] or [query] to the store,
    whatever the query string holds, and where the query string has no
    [page] and no [limit] the store is asked for page 1 with limit 10. *)
Theorem get_defaults_and_ignored `{Builtins}
    (roles : list string) (req : request) (h : heap) :
  method req = "GET" ->
  (forall a h', search_arguments req h = (Ok a, h') ->
     dict_get (search_kwargs roles a) "intersects" (VStr "unset") = VNone
     /\ dict_get (search_kwargs roles a) "query" (VStr "unset") = VNone)
  /\ (dict_mem (args req) "page" = false ->
      dict_mem (args req) "limit" = false ->
      exists a,
        search_arguments req h = (Ok a, h)
        /\ dict_get (search_kwargs roles a) "page" VNone = VInt 1
        /\ dict_get (search_kwargs roles a) "limit" VNone = VInt 10).
Proof.
  intros G. rewrite (search_arguments_get req h G). split.
  - intros a h' E.
    destruct (py_int (args_get (args req) "page" (VInt 1))); [|discriminate E].
    destruct (py_int (args_get (args req) "limit" (VInt 10))); [|discriminate E].
    inversion E; subst. split; reflexivity.
  - intros Pg Lm. rewrite (args_get_absent _ _ _ Pg), (args_get_absent _ _ _ Lm).
    cbn [py_int]. eexists. split; [reflexivity|]. split; reflexivity.
Qed.

Lemma get_defaults_and_ignored_witness :
  exists a,
    @search_arguments demo_builtins
      (demo_get [("query", [VStr "cloud<10"]); ("intersects", [VStr "POINT(0 0)"])]) []
    = (Ok a, [])
    /\ dict_get (search_kwargs [] a) "page" VNone = VInt 1
    /\ dict_get (search_kwargs [] a) "limit" VNone = VInt 10
    /\ dict_get (search_kwargs [] a) "intersects" (VStr "unset") = VNone
    /\ dict_get (search_kwargs [] a) "query" (VStr "unset") = VNone.
Proof.
  destruct (@get_defaults_and_ignored demo_builtins []
              (demo_get [("query", [VStr "cloud<10"]); ("intersects", [VStr "POINT(0 0)"])]) []
              eq_refl) as [Ign Def].
  destruct (Def eq_refl eq_refl) as (a & E & Pg & Lm).
  exists a. destruct (Ign a [] E) as [I Q]. repeat split; assumption.
Defined.

(** ** The store's failures *)

(** X10: what the catalog store raises is what the view raises: after a
    failed store call [stac_search] and [collection_items] build no
    link and copy no body, so the heap is as it was. *)
Theorem store_failure_propagates `{Builtins} `{Deployment}
    (collection_id : string) (roles : list string) (tok : string)
    (req : request) (h : heap) (e : exn) :
  (forall a,
      search_arguments req h = (Ok a, h) ->
      get_collection_items (search_kwargs roles a) = Raise e ->
      stac_search roles tok req h = (Raise e, h))
  /\ (dict_mem (to_dict (args req)) "collection_id" = false ->
      dict_mem (to_dict (args req)) "roles" = false ->
      get_collection_items
        ([("collection_id", VStr collection_id); ("roles", VList (map VStr roles))]
         ++ to_dict (args req))%list = Raise e ->
      collection_items collection_id roles tok req h = (Raise e, h)).
Proof.
  split.
  - intros a E St. unfold stac_search. unfold bind at 1. rewrite E.
    unfold bind at 1. unfold lift at 1. now rewrite St.
  - intros C R St. unfold collection_items. rewrite C, R. cbn [orb].
    unfold bind, lift. now rewrite St.
Qed.

Lemma store_failure_propagates_witness :
  @stac_search demo_builtins demo_deployment [] "" (demo_get [("bbox", [VStr "1,2,3"])]) []
  = (Raise (InvalidBoundingBoxError "bbox needs four numbers"), [])
  /\ @collection_items demo_builtins demo_deployment "S2-L2A" [] ""
       (demo_get [("bbox", [VStr "1,2,3"])]) []
     = (Raise (InvalidBoundingBoxError "bbox needs four numbers"), []).
Proof.
  split.
  - eapply (proj1 (@store_failure_propagates demo_builtins demo_deployment "S2-L2A" [] ""
                     (demo_get [("bbox", [VStr "1,2,3"])]) []
                     (InvalidBoundingBoxError "bbox needs four numbers"))).
    + vm_compute. reflexivity.
    + vm_compute. reflexivity.
  - apply (proj2 (@store_failure_propagates demo_builtins demo_deployment "S2-L2A" [] ""
                    (demo_get [("bbox", [VStr "1,2,3"])]) []
                    (InvalidBoundingBoxError "bbox needs four numbers"))); reflexivity.
Defined.

(** X11: a query parameter of [/collections/{id}/items] named [roles] or
    [collection_id] cannot stand in for the argument the route itself
    passes: the call of the store fails with [TypeError] before the
    store runs, and the caller gets the generic 500 reply. *)
Theorem items_reserved_parameter `{Builtins} `{Deployment}
    (collection_id : string) (roles : list string) (tok : string)
    (req : request) (h : heap) :
  dict_mem (to_dict (args req)) "roles" = true
  \/ dict_mem (to_dict (args req)) "collection_id" = true ->
  collection_items collection_id roles tok req h = (Raise TypeError, h)
  /\ dispatch_request (collection_items collection_id roles tok req) h
     = (Failure internal_error_body 500, h, [TypeError]).
Proof.
  intros R.
  assert (V : collection_items collection_id roles tok req h = (Raise TypeError, h)).
  { unfold collection_items.
    replace (dict_mem (to_dict (args req)) "collection_id"
             || dict_mem (to_dict (args req)) "roles") with true; [reflexivity|].
    destruct R as [-> | ->]; [now rewrite orb_true_r|reflexivity]. }
  split; [exact V|]. now apply dispatch_builtin.
Qed.

Lemma items_reserved_parameter_witness :
  @dispatch_request demo_builtins
    (@collection_items demo_builtins demo_deployment "S2-L2A" ["guest"] ""
       (demo_get [("roles", [VStr "admin"])])) []
  = (Failure (@internal_error_body demo_builtins) 500, [], [TypeError]).
Proof.
  apply (@items_reserved_parameter demo_builtins demo_deployment "S2-L2A" ["guest"] ""
           (demo_get [("roles", [VStr "admin"])]) []).
  left. reflexivity.
Defined.

(** ** Every failure gets a reply of one shape *)

Section ErrorShape.
Context `{Builtins} `{Deployment} `{Catalog}.

Lemma dispatch_request_is_dispatch (view : M feature_collection) (h : heap) :
  dispatch_request view h
  = match dispatch view h with
    | (Sent g, h', lg) => (Success g, h', lg)
    | (Failed b st, h', lg) => (Failure b st, h', lg)
    | (Escaped e, h', lg) => (Unhandled e, h', lg)
    end.
Proof.
  unfold dispatch_request, dispatch. destruct (view h) as [[g|e] h']; [reflexivity|].
  destruct (find_error_handler e) as [handle|]; [|reflexivity].
  destruct (handle e) as [[b st] lg]. reflexivity.
Qed.

End ErrorShape.

(** X12: no exception of a view escapes the error handlers, and every
    failing reply has the one shape: a body with exactly the fields
    [code] and [description], the description a string; the status is
    the integer code, except for an invalid bounding box, where the code
    is the string 400 and the status the integer 400. *)
Theorem error_reply_shape `{Builtins} {A : Type} (view : M A) (h h' : heap) (e : exn) :
  view h = (Raise e, h') ->
  exists code description status logged,
    dispatch view h
    = (Failed (VDict [("code", code); ("description", VStr description)]) status, h', logged)
    /\ (code = VInt status \/ (code = VStr "400" /\ status = 400 /\ is_bbox e = true)).
Proof.
  intros V. unfold dispatch. rewrite V.
  destruct e; cbn; do 4 eexists; (split; [reflexivity|]); try (left; reflexivity).
  right. repeat split.
Qed.

Lemma error_reply_shape_witness :
  exists code description status logged,
    @dispatch demo_builtins _
      (@collections_id demo_builtins demo_deployment demo_catalog "nope" [] "" (demo_get [])) []
    = (Failed (VDict [("code", code); ("description", VStr description)]) status, [], logged)
    /\ (code = VInt status
        \/ (code = VStr "400" /\ status = 400
            /\ is_bbox (HTTPException 404 "Collection not found.") = true)).
Proof.
  apply (@error_reply_shape demo_builtins _ _ [] [] (HTTPException 404 "Collection not found.")).
  vm_compute. reflexivity.
Defined.

(** ** Following a pagination link *)

(** X13: the body a POST pagination link carries is the original body
    with [page] overwritten; sent again as a POST search it is accepted
    whenever the original was, and the store is asked the same query
    with only [page] changed to the page number of the link. *)
Theorem post_link_round_trip `{Builtins}
    (roles : list string) (req req' : request) (h h' : heap) (rj rj' : loc)
    (d : list (string * value)) (a : search_args) (n : Z) :
  method req = "POST" -> is_json req = true -> get_json req = Ok rj ->
  nth rj h VNone = VDict d ->
  search_arguments req h = (Ok a, h) ->
  method req' = "POST" -> is_json req' = true -> get_json req' = Ok rj' ->
  nth rj' h' VNone = VDict (dict_set d "page" (VInt n)) ->
  exists a',
    search_arguments req' h' = (Ok a', h')
    /\ search_kwargs roles a' = dict_set (search_kwargs roles a) "page" (VInt n).
Proof.
  intros P J G D E P' J' G' D'.
  rewrite (search_arguments_post_fields req h rj d P J G D) in E.
  rewrite (search_arguments_post_fields req' h' rj' _ P' J' G' D').
  assert (F : post_fields rj d = Ok a) by now inversion E.
  clear E. unfold post_fields in *.
  rewrite dict_get_set_same.
  repeat rewrite (dict_get_set_other d "page" (VInt n)) by discriminate.
  destruct (if is_none (dict_get d "bbox" VNone) then _ else _); [|discriminate F].
  destruct (if is_none (dict_get d "ids" VNone) then _ else _); [|discriminate F].
  destruct (if is_none (dict_get d "collections" VNone) then _ else _); [|discriminate F].
  destruct (py_int (dict_get d "page" (VInt 1))); [|discriminate F].
  destruct (py_int (dict_get d "limit" (VInt 10))); [|discriminate F].
  inversion F; subst a. cbn [py_int].
  eexists. split; reflexivity.
Qed.

Lemma post_link_round_trip_witness :
  exists a a',
    @search_arguments demo_builtins (demo_post []) [VDict demo_body]
    = (Ok a, [VDict demo_body])
    /\ @search_arguments demo_builtins (demo_post [])
         [VDict (dict_set demo_body "page" (VInt 2))]
       = (Ok a', [VDict (dict_set demo_body "page" (VInt 2))])
    /\ search_kwargs ["admin"] a' = dict_set (search_kwargs ["admin"] a) "page" (VInt 2).
Proof.
  assert (E : exists a, @search_arguments demo_builtins (demo_post []) [VDict demo_body]
                        = (Ok a, [VDict demo_body]))
    by (eexists; vm_compute; reflexivity).
  destruct E as [a E]. exists a.
  destruct (@post_link_round_trip demo_builtins ["admin"] (demo_post []) (demo_post [])
              [VDict demo_body] [VDict (dict_set demo_body "page" (VInt 2))]
              0%nat 0%nat demo_body a 2
              eq_refl eq_refl eq_refl eq_refl E eq_refl eq_refl eq_refl eq_refl)
    as [a' [E' K]].
  exists a'. split; [exact E|]. split; [exact E'|exact K].
Defined.

(** ** The links of a listing *)

Section ListingLinks.
Context `{Builtins} `{Deployment}.

Lemma stac_search_inv roles tok req h g h2 :
  stac_search roles tok req h = (Ok g, h2) ->
  exists a items',
    search_arguments req h = (Ok a, h)
    /\ get_collection_items (search_kwargs roles a) = Ok items'
    /\ search_links req (request_json a) items' h = (Ok (links g), h2).
Proof.
  intros V. unfold stac_search in V. unfold bind at 1 in V.
  destruct (search_arguments req h) as [[a|e] h1] eqn:E; [|discriminate V].
  destruct (search_arguments_ok _ _ _ _ E) as [-> _].
  unfold bind at 1 in V. unfold lift at 1 in V.
  destruct (get_collection_items (search_kwargs roles a)) as [items'|e] eqn:St;
    [|discriminate V].
  unfold bind at 1 in V.
  destruct (search_links req (request_json a) items' h) as [[ls|e] h3] eqn:L;
    [|discriminate V].
  unfold ret in V. inversion V; subst. exists a, items'.
  split; [reflexivity|]. split; [exact St|exact L].
Qed.

Lemma collection_items_inv collection_id roles tok req h g h2 :
  collection_items collection_id roles tok req h = (Ok g, h2) ->
  h2 = h
  /\ exists items', links g = items_links collection_id req items'.
Proof.
  intros V. unfold collection_items in V.
  destruct (dict_mem (to_dict (args req)) "collection_id"
            || dict_mem (to_dict (args req)) "roles"); [discriminate V|].
  unfold bind, lift in V.
  destruct (get_collection_items _) as [items'|e]; [|discriminate V].
  unfold ret in V. inversion V; subst. split; [reflexivity|]. now exists items'.
Qed.

Lemma get_links_rels base a items' :
  Forall (fun l => (rel l = "next" \/ rel l = "prev") /\ body l = None)
    (get_links base a items')
  /\ (List.length (get_links base a items') <= 2)%nat.
Proof.
  unfold get_links. destruct (has_next items'), (has_prev items'); cbn [app List.length];
    (split; [|lia]); repeat (apply Forall_cons; [cbn; auto|]); apply Forall_nil.
Qed.

Lemma post_links_rels a items' n :
  Forall (fun l => rel l = "next" \/ rel l = "prev") (post_links a items' n)
  /\ (List.length (post_links a items' n) <= 2)%nat.
Proof.
  unfold post_links. destruct (has_next items'), (has_prev items'); cbn [app List.length];
    (split; [|lia]); repeat (apply Forall_cons; [cbn; auto|]); apply Forall_nil.
Qed.

Lemma other_links_rels a items' :
  Forall (fun l => rel l = "next" \/ rel l = "prev") (other_links a items')
  /\ (List.length (other_links a items') <= 2)%nat.
Proof.
  unfold other_links. destruct (has_next items'), (has_prev items'); cbn [app List.length];
    (split; [|lia]); repeat (apply Forall_cons; [cbn; auto|]); apply Forall_nil.
Qed.

End ListingLinks.

(** X14: the top-level links of a search response and of an item
    listing are pagination links and nothing else: at most two, each
    with rel next or prev.  The self, parent, collection and root links
    built in the routes go to the features only. *)
Theorem listing_links_are_pagination `{Builtins} `{Deployment}
    (collection_id : string) (roles : list string) (tok : string)
    (req : request) (h h2 : heap) (g : feature_collection) :
  stac_search roles tok req h = (Ok g, h2)
  \/ collection_items collection_id roles tok req h = (Ok g, h2) ->
  Forall (fun l => rel l = "next" \/ rel l = "prev") (links g)
  /\ (List.length (links g) <= 2)%nat.
Proof.
  intros [V|V].
  - destruct (stac_search_inv _ _ _ _ _ _ V) as (a & items' & E & _ & L).
    destruct (search_arguments_ok _ _ _ _ E) as [_ Post].
    destruct (method req =? "POST")%string eqn:P.
    + destruct (Post eq_refl) as (rj & d & _ & R & D). rewrite R in L.
      apply String.eqb_eq in P.
      rewrite (search_links_post req rj d items' h P D) in L. inversion L.
      apply post_links_rels.
    + destruct (method req =? "GET")%string eqn:G.
      * apply String.eqb_eq in G. rewrite (search_links_get req _ items' h G) in L.
        inversion L. destruct (get_links_rels (BASE_URL ++ "/search") (args req) items')
          as [F Ln].
        split; [|exact Ln]. eapply Forall_impl; [|exact F]. now intros l [R _].
      * rewrite (search_links_other req _ items' h G P) in L. inversion L.
        apply other_links_rels.
  - destruct (collection_items_inv _ _ _ _ _ _ _ V) as (_ & items' & L).
    rewrite L, items_links_eq.
    destruct (get_links_rels (BASE_URL ++ "/collections/" ++ collection_id ++ "/items")
                (args req) items') as [F Ln].
    split; [|exact Ln]. eapply Forall_impl; [|exact F]. now intros l [R _].
Qed.

Lemma listing_links_are_pagination_witness :
  exists g h2,
    @stac_search demo_builtins demo_deployment [] "" (demo_post [])
      [VDict [("page", VInt 2)]] = (Ok g, h2)
    /\ Forall (fun l => rel l = "next" \/ rel l = "prev") (links g)
    /\ (List.length (links g) <= 2)%nat.
Proof.
  do 2 eexists. split; [vm_compute; reflexivity|].
  eapply (@listing_links_are_pagination demo_builtins demo_deployment "S2-L2A" [] ""
            (demo_post []) [VDict [("page", VInt 2)]]).
  left. vm_compute. reflexivity.
Defined.

(** ** What a GET pagination link keeps of the request *)

Lemma other_items_app x y : other_items (x ++ y) = (other_items x ++ other_items y)%list.
Proof. apply filter_app. Qed.

Lemma page_items_app x y : page_items (x ++ y) = (page_items x ++ page_items y)%list.
Proof. apply filter_app. Qed.

Lemma other_items_of_key k (vs : list value) :
  other_items (map (fun v => (k, v)) vs)
  = if (k =? "page")%string then [] else map (fun v => (k, v)) vs.
Proof.
  unfold other_items. induction vs as [|v t IH]; cbn [map filter fst].
  - now destruct (k =? "page")%string.
  - rewrite IH. now destruct (k =? "page")%string.
Qed.

Lemma page_items_of_key k (vs : list value) :
  page_items (map (fun v => (k, v)) vs)
  = if (k =? "page")%string then map (fun v => (k, v)) vs else [].
Proof.
  unfold page_items. induction vs as [|v t IH]; cbn [map filter fst].
  - now destruct (k =? "page")%string.
  - rewrite IH. now destruct (k =? "page")%string.
Qed.

Lemma other_items_args_set (a : MultiDict) v :
  other_items (iter_multi_items (args_set a "page" v)) = other_items (iter_multi_items a).
Proof.
  unfold args_set, iter_multi_items.
  induction a as [|[k vs] t IH]; cbn [dict_set flat_map fst snd]; [reflexivity|].
  destruct (k =? "page")%string eqn:Q; cbn [flat_map fst snd].
  - rewrite !other_items_app, !other_items_of_key, Q. reflexivity.
  - rewrite !other_items_app, IH. reflexivity.
Qed.

Lemma page_items_absent (a : MultiDict) :
  ~ In "page" (map fst a) -> page_items (iter_multi_items a) = [].
Proof.
  unfold iter_multi_items. induction a as [|[k vs] t IH]; cbn [flat_map map fst snd];
    [reflexivity|].
  intros N. rewrite page_items_app, page_items_of_key.
  destruct (k =? "page")%string eqn:Q.
  - apply String.eqb_eq in Q. exfalso. apply N. now left.
  - apply IH. intros I. apply N. now right.
Qed.

Lemma page_items_args_set (a : MultiDict) v :
  unique_keys a ->
  page_items (iter_multi_items (args_set a "page" v)) = [("page", v)].
Proof.
  unfold unique_keys, args_set, iter_multi_items.
  induction a as [|[k vs] t IH]; cbn [dict_set flat_map map fst snd]; [reflexivity|].
  intros U. inversion U as [|? ? N U']; subst.
  destruct (k =? "page")%string eqn:Q; cbn [flat_map map fst snd].
  - apply String.eqb_eq in Q. subst k.
    rewrite page_items_app. cbn [map]. unfold page_items at 1. cbn.
    f_equal. apply (page_items_absent t N).
  - rewrite page_items_app, page_items_of_key, Q. cbn [app]. apply (IH U').
Qed.

Section KeptParameters.
Context `{Builtins} `{Deployment}.

Lemma get_links_keep base a items' l :
  In l (get_links base a items') ->
  exists qs,
    href l = base ++ "?" ++ url_encode qs
    /\ other_items (iter_multi_items qs) = other_items (iter_multi_items a)
    /\ (unique_keys a ->
        (rel l = "next" -> page_items (iter_multi_items qs) = [("page", VInt (next_num items'))])
        /\ (rel l = "prev" ->
            page_items (iter_multi_items qs) = [("page", VInt (prev_num items'))])).
Proof.
  unfold get_links. intros I. apply in_app_or in I.
  destruct I as [I|I]; [destruct (has_next items')|destruct (has_prev items')];
    try (now destruct I);
    (destruct I as [I|[]]; subst l; cbn [href rel plain_link];
     rewrite query_suffix_page; eexists; split; [reflexivity|];
     split; [apply other_items_args_set|];
     intros U; split; intros R; try discriminate R; now apply page_items_args_set).
Qed.

End KeptParameters.

(** X15: the href of a GET pagination link (of [/search] and of the
    items of a collection) is the endpoint path, a question mark and the
    encoding of the request's own parameters: every parameter other than
    [page] is there with all its values and in the order of the request,
    and, the request's parameters being keyed uniquely, there is exactly
    one [page] item, the page number of the link. *)
Theorem get_link_keeps_parameters `{Builtins} `{Deployment}
    (collection_id : string) (req : request) (rj : option loc) (h h2 : heap)
    (items' : Pagination) (ls : list link) (l : link) :
  (ls = items_links collection_id req items'
   \/ (method req = "GET" /\ search_links req rj items' h = (Ok ls, h2))) ->
  In l ls ->
  exists base qs,
    (base = BASE_URL ++ "/collections/" ++ collection_id ++ "/items"
     \/ base = BASE_URL ++ "/search")
    /\ href l = base ++ "?" ++ url_encode qs
    /\ other_items (iter_multi_items qs) = other_items (iter_multi_items (args req))
    /\ (unique_keys (args req) ->
        (rel l = "next" -> page_items (iter_multi_items qs) = [("page", VInt (next_num items'))])
        /\ (rel l = "prev" ->
            page_items (iter_multi_items qs) = [("page", VInt (prev_num items'))])).
Proof.
  intros [->|[G L]] I.
  - rewrite items_links_eq in I.
    destruct (get_links_keep _ _ _ _ I) as (qs & Hh & O & Pg).
    exists (BASE_URL ++ "/collections/" ++ collection_id ++ "/items"), qs.
    split; [now left|]. split; [exact Hh|]. split; [exact O|exact Pg].
  - rewrite (search_links_get req rj items' h G) in L. inversion L; subst ls h2.
    destruct (get_links_keep _ _ _ _ I) as (qs & Hh & O & Pg).
    exists (BASE_URL ++ "/search"), qs.
    split; [now right|]. split; [exact Hh|]. split; [exact O|exact Pg].
Qed.

Lemma get_link_keeps_parameters_witness :
  exists base qs,
    (base = "http://localhost" ++ "/collections/" ++ "S2-L2A" ++ "/items"
     \/ base = "http://localhost" ++ "/search")
    /\ "http://localhost/search?bbox=-60%2C-10%2C-50%2C0&page=3&limit=2"
       = base ++ "?" ++ @url_encode demo_builtins qs
    /\ other_items (iter_multi_items qs)
       = [("bbox", VStr "-60,-10,-50,0"); ("limit", VStr "2")]
    /\ (unique_keys [("bbox", [VStr "-60,-10,-50,0"]); ("page", [VStr "2"]);
                     ("limit", [VStr "2"])] ->
        ("next" = "next" -> page_items (iter_multi_items qs) = [("page", VInt 3)])
        /\ ("next" = "prev" -> page_items (iter_multi_items qs) = [("page", VInt 1)])).
Proof.
  apply (@get_link_keeps_parameters demo_builtins demo_deployment "S2-L2A"
           (demo_get [("bbox", [VStr "-60,-10,-50,0"]); ("page", [VStr "2"]);
                      ("limit", [VStr "2"])])
           None [] [] (demo_page 2)
           [plain_link "http://localhost/search?bbox=-60%2C-10%2C-50%2C0&page=3&limit=2" "next";
            plain_link "http://localhost/search?bbox=-60%2C-10%2C-50%2C0&page=1&limit=2" "prev"]
           (plain_link "http://localhost/search?bbox=-60%2C-10%2C-50%2C0&page=3&limit=2" "next")).
  - right. split; [reflexivity|]. vm_compute. reflexivity.
  - left. reflexivity.
Defined.

(** ** The catalog routes *)

Lemma fold_left_snoc {A B} (f : A -> B) (xs : list A) (init : list B) :
  fold_left (fun ls x => (ls ++ [f x])%list) xs init = (init ++ map f xs)%list.
Proof.
  revert init. induction xs as [|x t IH]; intros init; cbn; [now rewrite app_nil_r|].
  now rewrite IH, <- app_assoc.
Qed.

Lemma dict_item_present {A} (d : list (string * A)) key default :
  dict_mem d key = true -> dict_item d key = Ok (dict_get d key default).
Proof.
  induction d as [|[k v] t IH]; cbn; [discriminate|].
  destruct (k =? key)%string; [reflexivity|exact IH].
Qed.

Lemma dict_item_absent {A} (d : list (string * A)) key :
  dict_mem d key = false -> dict_item d key = Raise (OtherError "KeyError").
Proof.
  induction d as [|[k v] t IH]; cbn; [reflexivity|].
  destruct (k =? key)%string; [discriminate|exact IH].
Qed.

Lemma dict_item_set_same {A} (d : list (string * A)) k v : dict_item (dict_set d k v) k = Ok v.
Proof.
  induction d as [|[k' v'] t IH]; cbn.
  - now rewrite String.eqb_refl.
  - destruct (k' =? k)%string eqn:Q; cbn; rewrite Q; [reflexivity|exact IH].
Qed.

(** X16: the landing page lists the five fixed links first (self,
    service-doc, conformance, data, search), with hrefs that never carry
    the assets suffix, and then one child link per row the catalog store
    returned, in the store's order, each to the collection of that name
    and with the assets suffix. *)
Theorem landing_page_links `{Builtins} `{Deployment} `{Catalog}
    (roles : list string) (tok : string) (req : request) (h : heap)
    (rows : list (string * string)) :
  get_catalog roles = Ok rows ->
  exists doc,
    index roles tok req h = (Ok doc, h)
    /\ map rel (cat_links doc) = (landing_rels ++ map (fun _ => "child") rows)%list
    /\ map href (cat_links doc)
       = List.app
           [BASE_URL ++ "/"; BASE_URL ++ "/docs"; BASE_URL ++ "/conformance";
            BASE_URL ++ "/collections"; BASE_URL ++ "/search"]
           (map (fun c => BASE_URL ++ "/collections/" ++ fst c
                          ++ get_assets_kwargs req tok) rows)
    /\ map title (skipn 5 (cat_links doc)) = map (fun c => Some (snd c)) rows
    /\ count_rel "child" (cat_links doc) = List.length rows.
Proof.
  intros C. unfold index, bind, lift, ret. rewrite C.
  eexists. split; [reflexivity|]. cbn [cat_links].
  rewrite (fold_left_snoc
             (fun c => typed_link (BASE_URL ++ "/collections/" ++ fst c
                                   ++ get_assets_kwargs req tok)
                         "child" "application/json" (snd c))).
  rewrite !map_app, !map_map. cbn [map rel href typed_link app skipn].
  split; [reflexivity|]. split; [reflexivity|]. split.
  - rewrite map_map. reflexivity.
  - unfold count_rel. cbn [filter rel typed_link].
    change (("self" =? "child")%string) with false.
    change (("service-doc" =? "child")%string) with false.
    change (("conformance" =? "child")%string) with false.
    change (("data" =? "child")%string) with false.
    change (("search" =? "child")%string) with false.
    cbv iota. clear C. induction rows as [|r t IH]; [reflexivity|].
    cbn [map filter rel typed_link]. change (("child" =? "child")%string) with true.
    cbn [List.length]. f_equal. apply IH.
Qed.

Lemma landing_page_links_witness :
  exists doc,
    @index demo_builtins demo_deployment demo_catalog ["guest"] "tok"
      (demo_get [("access_token", [VStr "forged"])]) []
    = (Ok doc, [])
    /\ map rel (cat_links doc)
       = ["self"; "service-doc"; "conformance"; "data"; "search"; "child"; "child"]
    /\ map href (cat_links doc)
       = ["http://localhost/"; "http://localhost/docs"; "http://localhost/conformance";
          "http://localhost/collections"; "http://localhost/search";
          "http://localhost/collections/S2-L2A?access_token=tok";
          "http://localhost/collections/LC8?access_token=tok"]
    /\ map title (skipn 5 (cat_links doc)) = [Some "Sentinel-2"; Some "Landsat-8"]
    /\ count_rel "child" (cat_links doc) = 2%nat.
Proof.
  apply (@landing_page_links demo_builtins demo_deployment demo_catalog ["guest"] "tok"
           (demo_get [("access_token", [VStr "forged"])]) []
           [("S2-L2A", "Sentinel-2"); ("LC8", "Landsat-8")]).
  reflexivity.
Defined.

Section CollectionLinks.
Context `{Builtins} `{Deployment} `{Catalog}.

(** What [with_links] makes of a collection that has an [id]. *)
Lemma with_links_ok (c : list (string * value)) (kw : string) :
  dict_mem c "id" = true ->
  exists c' ls,
    with_links c kw = Ok c'
    /\ c' = dict_set c "links" (VList (map link_value ls))
    /\ map rel ls = ["self"; "items"; "parent"; "root"]
    /\ map href ls
       = [BASE_URL ++ "/collections/" ++ py_str (dict_get c "id" VNone) ++ kw;
          BASE_URL ++ "/collections/" ++ py_str (dict_get c "id" VNone) ++ "/items" ++ kw;
          BASE_URL ++ "/collections" ++ kw;
          BASE_URL ++ "/" ++ kw].
Proof.
  intros I. unfold with_links, collection_links.
  rewrite (dict_item_present c "id" VNone I).
  do 2 eexists. split; [reflexivity|]. split; [reflexivity|]. split; reflexivity.
Qed.

Lemma with_links_no_id (c : list (string * value)) (kw : string) :
  dict_mem c "id" = false -> with_links c kw = Raise (OtherError "KeyError").
Proof.
  intros I. unfold with_links, collection_links. now rewrite (dict_item_absent c "id" I).
Qed.

(** The relation between a collection as the store returns it and as
    the routes send it. *)
Lemma with_links_keeps (c c' : list (string * value)) (kw : string) :
  with_links c kw = Ok c' ->
  (forall k default, k <> "links" -> dict_get c' k default = dict_get c k default)
  /\ exists ls,
       dict_item c' "links" = Ok (VList (map link_value ls))
       /\ map rel ls = ["self"; "items"; "parent"; "root"].
Proof.
  intros W. destruct (dict_mem c "id") eqn:I.
  - destruct (with_links_ok c kw I) as (c0 & ls & W0 & -> & R & _).
    rewrite W0 in W. inversion W; subst c'. split.
    + intros k default N. now apply dict_get_set_other.
    + exists ls. split; [apply dict_item_set_same|exact R].
  - rewrite (with_links_no_id c kw I) in W. discriminate W.
Qed.

Lemma each_with_links_ok (cs : list (list (string * value))) (kw : string) :
  Forall (fun c => dict_mem c "id" = true) cs ->
  exists cs',
    each_with_links cs kw = Ok cs'
    /\ Forall2 (fun c c' => with_links c kw = Ok c') cs cs'.
Proof.
  induction 1 as [|c t I F IH]; cbn [each_with_links].
  - exists []. split; [reflexivity|constructor].
  - destruct (with_links_ok c kw I) as (c' & ls & W & _).
    destruct IH as (t' & E & F2). rewrite W, E.
    exists (c' :: t'). split; [reflexivity|]. now constructor.
Qed.

End CollectionLinks.

(** X17: [/collections] answers with as many collections as the store
    returned, in the same order; each one keeps every field it had
    except [links], and its [links] are replaced by four links with rels
    self, items, parent and root (a collection without an [id] cannot be
    linked, so each has to have one). *)
Theorem collections_listing `{Builtins} `{Deployment} `{Catalog}
    (roles : list string) (tok : string) (req : request) (h : heap)
    (cs : list (list (string * value))) :
  get_collections None roles = Ok cs ->
  Forall (fun c => dict_mem c "id" = true) cs ->
  exists cs',
    root roles tok req h = (Ok [("collections", VList (map VDict cs'))], h)
    /\ Forall2
         (fun c c' =>
            (forall k default, k <> "links" -> dict_get c' k default = dict_get c k default)
            /\ exists ls,
                 dict_item c' "links" = Ok (VList (map link_value ls))
                 /\ map rel ls = ["self"; "items"; "parent"; "root"])
         cs cs'.
Proof.
  intros G F.
  destruct (each_with_links_ok cs (get_assets_kwargs req tok) F) as (cs' & E & F2).
  exists cs'. split.
  - unfold root, bind, lift, ret. now rewrite G, E.
  - clear E G F. induction F2 as [|c c' t t' W F2 IH]; constructor; [|exact IH].
    exact (with_links_keeps c c' _ W).
Qed.

Lemma collections_listing_witness :
  exists cs',
    @root demo_builtins demo_deployment demo_catalog [] "" (demo_get []) []
    = (Ok [("collections", VList (map VDict cs'))], [])
    /\ Forall2
         (fun c c' =>
            (forall k default, k <> "links" -> dict_get c' k default = dict_get c k default)
            /\ exists ls,
                 dict_item c' "links" = Ok (VList (map link_value ls))
                 /\ map rel ls = ["self"; "items"; "parent"; "root"])
         [[("id", VStr "S2-L2A"); ("links", VList [])];
          [("id", VStr "LC8"); ("title", VStr "Landsat-8")]]
         cs'.
Proof.
  apply (@collections_listing demo_builtins demo_deployment demo_catalog [] "" (demo_get []) []).
  - reflexivity.
  - repeat constructor.
Defined.

(** X18: [/collections/{id}] answers 404 with the description
    "Collection not found." exactly when the store returns no
    collection for the id; when it returns some, the first one is sent,
    with its other fields as they were and the four links; any further
    one is ignored. *)
Theorem collection_lookup `{Builtins} `{Deployment} `{Catalog}
    (collection_id : string) (roles : list string) (tok : string)
    (req : request) (h : heap) (cs : list (list (string * value))) :
  get_collections (Some collection_id) roles = Ok cs ->
  (dispatch (collections_id collection_id roles tok req) h
   = (Failed (http_error_body 404 "Collection not found.") 404, h, [])
   <-> cs = [])
  /\ (forall c rest,
        cs = c :: rest ->
        dict_mem c "id" = true ->
        exists c',
          dispatch (collections_id collection_id roles tok req) h = (Sent c', h, [])
          /\ with_links c (get_assets_kwargs req tok) = Ok c'
          /\ (forall k default, k <> "links" -> dict_get c' k default = dict_get c k default)).
Proof.
  intros G. split.
  - split.
    + intros D. destruct cs as [|c rest]; [reflexivity|]. exfalso.
      unfold dispatch, collections_id, bind, lift in D. rewrite G in D.
      destruct (dict_mem c "id") eqn:I.
      * destruct (with_links_ok c (get_assets_kwargs req tok) I) as (c' & ls & W & _).
        rewrite W in D. discriminate D.
      * rewrite (with_links_no_id c _ I) in D. cbn in D. discriminate D.
    + intros ->. unfold dispatch, collections_id, bind, lift. rewrite G. reflexivity.
  - intros c rest -> I.
    destruct (with_links_ok c (get_assets_kwargs req tok) I) as (c' & ls & W & _).
    exists c'. split; [|split; [exact W|]].
    + unfold dispatch, collections_id, bind, lift. now rewrite G, W.
    + exact (proj1 (with_links_keeps c c' _ W)).
Qed.

Lemma collection_lookup_witness :
  (@dispatch demo_builtins _
     (@collections_id demo_builtins demo_deployment demo_catalog "nope" [] "" (demo_get [])) []
   = (Failed (http_error_body 404 "Collection not found.") 404, [], []))
  /\ exists c',
       @dispatch demo_builtins _
         (@collections_id demo_builtins demo_deployment demo_catalog "S2-L2A" [] ""
            (demo_get [])) []
       = (Sent c', [], [])
       /\ @with_links demo_builtins demo_deployment
            [("id", VStr "S2-L2A"); ("links", VList [])]
            (@get_assets_kwargs demo_builtins demo_deployment (demo_get []) "")
          = Ok c'
       /\ (forall k default, k <> "links" ->
             dict_get c' k default
             = dict_get [("id", VStr "S2-L2A"); ("links", VList [])] k default).
Proof.
  split.
  - apply (proj1 (@collection_lookup demo_builtins demo_deployment demo_catalog "nope" [] ""
                    (demo_get []) [] [] eq_refl)).
    reflexivity.
  - apply (proj2 (@collection_lookup demo_builtins demo_deployment demo_catalog "S2-L2A" [] ""
                    (demo_get []) [] [[("id", VStr "S2-L2A"); ("links", VList [])]] eq_refl)
             [("id", VStr "S2-L2A"); ("links", VList [])] []); reflexivity.
Defined.

(** X19: [/collections/{id}/items/{item_id}] sends the first feature
    built from the store's answer, and answers 404, naming the item and
    the collection, when no feature was built. *)
Theorem item_lookup `{Builtins} `{Deployment}
    (collection_id item_id : string) (roles : list string) (tok : string)
    (req : request) (h : heap) (item : Pagination) :
  get_collection_items
    [("collection_id", VStr collection_id); ("roles", VList (map VStr roles));
     ("item_id", VStr item_id)] = Ok item ->
  dispatch (items_id collection_id item_id roles tok req) h
  = match make_geojson (items item)
            [ plain_link (BASE_URL ++ "/collections/") "self";
              plain_link (BASE_URL ++ "/collections/") "parent";
              plain_link (BASE_URL ++ "/collections/") "collection";
              plain_link (BASE_URL ++ "/") "root" ]
            (get_assets_kwargs req tok) with
    | feature :: _ => (Sent feature, h, [])
    | [] =>
        (Failed (http_error_body 404
                   ("Invalid item id '" ++ item_id ++ "' for collection '"
                    ++ collection_id ++ "'")) 404, h, [])
    end.
Proof.
  intros G. unfold dispatch, items_id, bind, lift. rewrite G.
  destruct (make_geojson _ _ _); reflexivity.
Qed.

Lemma item_lookup_witness :
  @dispatch demo_builtins _
    (@items_id demo_builtins demo_deployment "S2-L2A" "item-a" [] "" (demo_get [])) []
  = (Sent (VStr "item-a"), [], []).
Proof.
  apply (@item_lookup demo_builtins demo_deployment "S2-L2A" "item-a" [] "" (demo_get []) []
           (demo_page 1)).
  reflexivity.
Defined.
